(** * Trivia API (backend/flaskr): a shallow embedding of the request handlers

    The handlers of [backend/flaskr/__init__.py] are translated to Rocq
    functions over an explicit world (the driver of the store, the two
    tables, the ORM session, a fault script for the storage collaborator
    and the tape of the random generator).  Python values that travel over the wire are [json] terms,
    Python exceptions are values of [exn], and each handler is a computation
    of the state-and-exception monad [M]. *)

From Stdlib Require Import ZArith List String Ascii Bool Lia DecimalString.
From Stdlib Require Import Sorting.Sorted Sorting.Permutation.
Import ListNotations.

Set Warnings "-register-all".

Local Open Scope Z_scope.

(* ===================================================================== *)
(** ** Python values and primitives *)
(* ===================================================================== *)

Module Py.

(** JSON documents as [request.get_json()] delivers them and as [jsonify]
    takes them.  Numbers are the integers; a dict keeps its items in
    insertion order. *)
Inductive json : Type :=
| JNull
| JBool (b : bool)
| JNum (n : Z)
| JStr (s : string)
| JList (l : list json)
| JDict (d : list (string * json)).

(** The exceptions that can travel through a handler.  [HTTPException] is
    what [abort(code)] raises. *)
Inductive exn : Type :=
| HTTPException (code : Z)
| AttributeError
| TypeError
| KeyError
| IndexError
| ArgumentError
| MultipleResultsFound
| DataError
| IntegrityError
| OperationalError.

Inductive outcome (A : Type) : Type :=
| Return (a : A)
| Raise (e : exn).
Arguments Return {A} a.
Arguments Raise {A} e.

(** Truth value of an object, as [if search_term:] tests it. *)
Definition truthy (v : json) : bool :=
  match v with
  | JNull => false
  | JBool b => b
  | JNum n => negb (n =? 0)
  | JStr s => negb (String.eqb s EmptyString)
  | JList l => match l with [] => false | _ => true end
  | JDict d => match d with [] => false | _ => true end
  end.

Fixpoint assoc (k : string) (d : list (string * json)) : option json :=
  match d with
  | [] => None
  | (k', v) :: d' => if String.eqb k k' then Some v else assoc k d'
  end.

(** [obj.get(key, None)]: only a dict has the method. *)
Definition get (obj : json) (key : string) : outcome json :=
  match obj with
  | JDict d => match assoc key d with
               | Some v => Return v
               | None => Return JNull
               end
  | _ => Raise AttributeError
  end.

(** [obj[key]] with a string key. *)
Definition getitem (obj : json) (key : string) : outcome json :=
  match obj with
  | JDict d => match assoc key d with
               | Some v => Return v
               | None => Raise KeyError
               end
  | _ => Raise TypeError
  end.

(** Index adjustment of a slice bound for a sequence of length [n]
    (step 1): a negative bound counts from the end, and the result is
    clamped to [0, n]. *)
Definition adjust_index (n i : Z) : Z :=
  if i <? 0 then Z.max 0 (i + n) else Z.min i n.

(** [l[start:stop]]. *)
Definition slice {A : Type} (l : list A) (start stop : Z) : list A :=
  let n := Z.of_nat (List.length l) in
  let lo := adjust_index n start in
  let hi := adjust_index n stop in
  firstn (Z.to_nat (hi - lo)) (skipn (Z.to_nat lo) l).

(** [len(l)] as a Python integer. *)
Definition len {A : Type} (l : list A) : Z := Z.of_nat (List.length l).

End Py.
Export Py.

(* ===================================================================== *)
(** ** The storage collaborator: SQL pattern matching *)
(* ===================================================================== *)

Module Sql.

Definition is_upper (c : ascii) : bool :=
  ((65 <=? nat_of_ascii c) && (nat_of_ascii c <=? 90))%nat.

(** Case folding of the letters A-Z; every other character is kept. *)
Definition lower (c : ascii) : ascii :=
  if is_upper c then ascii_of_nat (nat_of_ascii c + 32) else c.

Definition eq_ci (a b : ascii) : bool := Ascii.eqb (lower a) (lower b).

(** The three characters that are special in a LIKE pattern. *)
Definition is_wildcard (c : ascii) : bool :=
  Ascii.eqb c "%" || Ascii.eqb c "_" || Ascii.eqb c "\".

(** [text ILIKE pattern] on character lists: [%] stands for any run of
    characters, [_] for any single character, and a backslash takes the
    next pattern character literally (a pattern that ends in a lone
    backslash matches nothing).  Letters compare without case. *)
Fixpoint like (p : list ascii) : list ascii -> bool :=
  match p with
  | [] => fun s => match s with [] => true | _ :: _ => false end
  | c :: p' =>
      if Ascii.eqb c "%" then
        fix star (s : list ascii) : bool :=
          like p' s || match s with [] => false | _ :: s' => star s' end
      else if Ascii.eqb c "_" then
        fun s => match s with [] => false | _ :: s' => like p' s' end
      else if Ascii.eqb c "\" then
        match p' with
        | [] => fun _ => false
        | e :: p'' =>
            fun s => match s with
                     | [] => false
                     | x :: s' => eq_ci e x && like p'' s'
                     end
        end
      else
        fun s => match s with
                 | [] => false
                 | x :: s' => eq_ci c x && like p' s'
                 end
  end.

(** [column.ilike(pattern)] on a nullable text column: NULL never
    matches. *)
Definition ilike (column : option string) (pattern : string) : bool :=
  match column with
  | None => false
  | Some text =>
      like (list_ascii_of_string pattern) (list_ascii_of_string text)
  end.

(** What the specification calls a case-insensitive substring match:
    [t] occurs in [s] as a contiguous run, letters compared without
    case. *)
Fixpoint prefix_ci (t s : list ascii) : bool :=
  match t, s with
  | [], _ => true
  | _ :: _, [] => false
  | a :: t', b :: s' => eq_ci a b && prefix_ci t' s'
  end.

Fixpoint substring_ci (t s : list ascii) : bool :=
  prefix_ci t s || match s with [] => false | _ :: s' => substring_ci t s' end.

Definition contains_ci (column : option string) (term : string) : bool :=
  match column with
  | None => false
  | Some text =>
      substring_ci (list_ascii_of_string term) (list_ascii_of_string text)
  end.

End Sql.

(* ===================================================================== *)
(** ** The storage collaborator: how values are bound *)
(* ===================================================================== *)

(** The sources at hand do not say how the store and its driver read a
    value out of a JSON body when it is bound to a column or compared with
    one; it depends on the object-relational mapper, on the driver and on
    the database.  What is not fixed is kept as the four functions of a
    driver, and the statements about the handlers hold for every driver.
    Fixed throughout: null is NULL, and a JSON integer compares as that
    integer. *)
Module Driver.

Record t : Type := mk {
  (* INSERT: the text a value other than null becomes in a text column *)
  text_column : json -> outcome (option string);
  (* INSERT: the integer a value other than null becomes in an integer column *)
  integer_column : json -> outcome (option Z);
  (* comparison with an integer column: a value that is neither a JSON
     integer nor null *)
  integer_operand : json -> outcome (option Z);
  (* NOT IN: the elements of an operand that is a string or an object *)
  sequence_operand : json -> outcome (list json)
}.

(** The input syntax of an integer literal in quotes: blanks, a sign,
    digits, blanks; the value has to fit 32 bits. *)
Definition is_space (c : ascii) : bool :=
  ((nat_of_ascii c =? 32) ||
   ((9 <=? nat_of_ascii c) && (nat_of_ascii c <=? 13)))%nat.

Definition digit_of (c : ascii) : option Z :=
  if ((48 <=? nat_of_ascii c) && (nat_of_ascii c <=? 57))%nat
  then Some (Z.of_nat (nat_of_ascii c - 48))
  else None.

Fixpoint skip_spaces (s : list ascii) : list ascii :=
  match s with
  | c :: s' => if is_space c then skip_spaces s' else s
  | [] => []
  end.

Fixpoint digits (acc : Z) (s : list ascii) : Z * list ascii :=
  match s with
  | c :: s' =>
      match digit_of c with
      | Some d => digits (10 * acc + d) s'
      | None => (acc, s)
      end
  | [] => (acc, [])
  end.

Definition in_int4 (n : Z) : bool := (-2147483648 <=? n) && (n <=? 2147483647).

Definition integer_literal (s : string) : option Z :=
  let s1 := skip_spaces (list_ascii_of_string s) in
  let signed :=
    match s1 with
    | c :: r =>
        if Ascii.eqb c "-" then (true, r)
        else if Ascii.eqb c "+" then (false, r)
        else (false, s1)
    | [] => (false, s1)
    end in
  match snd signed with
  | c :: _ =>
      match digit_of c with
      | None => None
      | Some _ =>
          let (n, rest) := digits 0 (snd signed) in
          match skip_spaces rest with
          | [] =>
              let v := if fst signed then - n else n in
              if in_int4 v then Some v else None
          | _ :: _ => None
          end
      end
  | [] => None
  end.

(** The decimal text of an integer. *)
Definition decimal (n : Z) : string := NilZero.string_of_int (Z.to_int n).

Definition has_nul (s : string) : bool :=
  existsb (fun c => Ascii.eqb c zero) (list_ascii_of_string s).

(** One driver, for the worked examples: a text column takes a string
    without a NUL character, and an integer as its decimal text; an integer
    column takes an integer of 32 bits, and a string that is the literal of
    one; a string compares with an integer column as the literal it is; the
    elements of an object are its keys and those of a string are its
    characters.  It refuses the rest. *)
Definition psycopg2 : t :=
  mk (fun v => match v with
               | JStr s => if has_nul s then Raise DataError else Return (Some s)
               | JNum n => Return (Some (decimal n))
               | _ => Raise DataError
               end)
     (fun v => match v with
               | JNum n => if in_int4 n then Return (Some n) else Raise DataError
               | JStr s => match integer_literal s with
                           | Some n => Return (Some n)
                           | None => Raise DataError
                           end
               | _ => Raise DataError
               end)
     (fun v => match v with
               | JStr s => match integer_literal s with
                           | Some n => Return (Some n)
                           | None => Raise DataError
                           end
               | _ => Raise DataError
               end)
     (fun v => match v with
               | JDict d => Return (map (fun item => JStr (fst item)) d)
               | JStr s =>
                   Return (map (fun c => JStr (String c EmptyString))
                               (list_ascii_of_string s))
               | _ => Raise TypeError
               end).

End Driver.

(* ===================================================================== *)
(** ** The records of models.py *)
(* ===================================================================== *)

(** Modelled from the spec: [models.py] (the classes [Question] and
    [Category] with [format], [insert] and [delete], and the handle [db])
    is not part of the sources at hand.  The spec gives a Question an id
    (unique, server-generated), a question text, an answer text, a category
    (the id of a Category) and a difficulty (a small integer); the wire
    form of a question is the object with the keys id, question, answer,
    category and difficulty.  Every column but the key is nullable. *)
Module Question.

Record t : Type := mk {
  id : Z;
  question : option string;
  answer : option string;
  category : option Z;
  difficulty : option Z
}.

(** The transient object [Question(question=..., answer=..., category=...,
    difficulty=...)]: it holds the values as given and has no id before it
    is inserted. *)
Record draft : Type := new {
  d_question : json;
  d_answer : json;
  d_category : json;
  d_difficulty : json
}.

Definition text_json (v : option string) : json :=
  match v with Some s => JStr s | None => JNull end.

Definition int_json (v : option Z) : json :=
  match v with Some n => JNum n | None => JNull end.

Definition format (q : t) : json :=
  JDict [("id"%string, JNum (id q));
         ("question"%string, text_json (question q));
         ("answer"%string, text_json (answer q));
         ("category"%string, int_json (category q));
         ("difficulty"%string, int_json (difficulty q))].

(** Binding a value to a text or an integer column on INSERT: null is
    NULL, any other value is what the driver makes of it. *)
Definition bind_text (drv : Driver.t) (v : json) : outcome (option string) :=
  match v with
  | JNull => Return None
  | _ => Driver.text_column drv v
  end.

Definition bind_integer (drv : Driver.t) (v : json) : outcome (option Z) :=
  match v with
  | JNull => Return None
  | _ => Driver.integer_column drv v
  end.

(** The row a draft becomes under the key [i]. *)
Definition row (drv : Driver.t) (i : Z) (d : draft) : outcome t :=
  match bind_text drv (d_question d), bind_text drv (d_answer d),
        bind_integer drv (d_category d), bind_integer drv (d_difficulty d) with
  | Return q, Return a, Return c, Return k => Return (mk i q a c k)
  | _, _, _, _ => Raise DataError
  end.

(** ORDER BY id: insertion into an ascending list, and the sort. *)
Fixpoint insert_by_id (q : t) (l : list t) : list t :=
  match l with
  | [] => [q]
  | r :: l' => if id q <=? id r then q :: l else r :: insert_by_id q l'
  end.

Definition sort_by_id (l : list t) : list t := fold_right insert_by_id [] l.

End Question.

(** Modelled from the spec: a Category has an id and a type (its display
    label); its wire form is the object with the keys id and type. *)
Module Category.

Record t : Type := mk {
  id : Z;
  type : string
}.

Definition format (c : t) : json :=
  JDict [("id"%string, JNum (id c)); ("type"%string, JStr (type c))].

Fixpoint insert_by_id (c : t) (l : list t) : list t :=
  match l with
  | [] => [c]
  | r :: l' => if id c <=? id r then c :: l else r :: insert_by_id c l'
  end.

Definition sort_by_id (l : list t) : list t := fold_right insert_by_id [] l.

End Category.

(* ===================================================================== *)
(** ** The world of a request and the monad of the handlers *)
(* ===================================================================== *)

(** A change the session holds until it is committed or rolled back. *)
Inductive change : Type :=
| Add (d : Question.draft)
| Delete (q : Question.t).

Record World : Type := mkWorldOn {
  driver : Driver.t;                (* how the store binds values *)
  questions : list Question.t;      (* table questions, in storage order *)
  categories : list Category.t;     (* table categories *)
  questions_id_seq : Z;             (* the sequence behind Question.id *)
  pending : list change;            (* db.session: the changes not yet committed *)
  faults : list bool;               (* per round trip to the store: does it fail? *)
  round_trips : nat;                (* round trips made so far *)
  tape : list nat                   (* raw draws of the random generator *)
}.

(** A world on the driver of the worked examples. *)
Definition mkWorld (questions : list Question.t) (categories : list Category.t)
    (questions_id_seq : Z) (pending : list change) (faults : list bool)
    (round_trips : nat) (tape : list nat) : World :=
  mkWorldOn Driver.psycopg2 questions categories questions_id_seq pending faults
            round_trips tape.

(** A handler step: it reads and writes the world and either returns or
    raises; the world survives a raise (the [except] clause runs in it). *)
Definition M (A : Type) : Type := World -> outcome A * World.

Definition ret {A : Type} (a : A) : M A := fun w => (Return a, w).

Definition bind {A B : Type} (c : M A) (k : A -> M B) : M B :=
  fun w =>
    match c w with
    | (Return a, w') => k a w'
    | (Raise e, w') => (Raise e, w')
    end.

Definition raise {A : Type} (e : exn) : M A := fun w => (Raise e, w).

(** [try: c except: h], the bare [except] that catches everything. *)
Definition try_except {A : Type} (c h : M A) : M A :=
  fun w =>
    match c w with
    | (Return a, w') => (Return a, w')
    | (Raise _, w') => h w'
    end.

Definition lift {A : Type} (o : outcome A) : M A := fun w => (o, w).

Definition get_world : M World := fun w => (Return w, w).

Definition put_world (w : World) : M unit := fun _ => (Return tt, w).

Declare Scope handler_scope.
Delimit Scope handler_scope with handler.
Bind Scope handler_scope with M.

Notation "x <- c ;; k" := (bind c (fun x => k))
  (at level 61, c at next level, right associativity) : handler_scope.
Notation "c ;; k" := (bind c (fun _ => k))
  (at level 61, right associativity) : handler_scope.
Notation "'try' c 'except' h" := (try_except c h)
  (at level 61, c at level 0, h at level 0) : handler_scope.

Local Open Scope handler_scope.

(** [abort(code)]. *)
Definition abort {A : Type} (code : Z) : M A := raise (HTTPException code).

(** A statement under [if b:] with no [else]. *)
Definition when (b : bool) (c : M unit) : M unit := if b then c else ret tt.

Definition set_questions (l : list Question.t) (w : World) : World :=
  mkWorldOn (driver w) l (categories w) (questions_id_seq w) (pending w) (faults w)
          (round_trips w) (tape w).

Definition set_questions_id_seq (i : Z) (w : World) : World :=
  mkWorldOn (driver w) (questions w) (categories w) i (pending w) (faults w)
          (round_trips w) (tape w).

Definition set_pending (p : list change) (w : World) : World :=
  mkWorldOn (driver w) (questions w) (categories w) (questions_id_seq w) p (faults w)
          (round_trips w) (tape w).

Definition set_tape (t : list nat) (w : World) : World :=
  mkWorldOn (driver w) (questions w) (categories w) (questions_id_seq w) (pending w)
          (faults w) (round_trips w) t.

(** The world after one more round trip to the store. *)
Definition tick (w : World) : World :=
  mkWorldOn (driver w) (questions w) (categories w) (questions_id_seq w) (pending w)
          (tl (faults w)) (S (round_trips w)) (tape w).

(* ===================================================================== *)
(** ** The session and the queries *)
(* ===================================================================== *)

Module Db.

(** One statement sent to the store: the script says whether it fails. *)
Definition round_trip : M unit :=
  fun w =>
    if hd false (faults w) then (Raise OperationalError, tick w)
    else (Return tt, tick w).

Definition session_add (c : change) : M unit :=
  fun w => (Return tt, set_pending (pending w ++ [c]) w).

(** [db.session.rollback()]: the uncommitted changes are dropped. *)
Definition rollback : M unit :=
  fun w => (Return tt, set_pending [] w).

(** Modelled from the spec: [question.insert()] adds the object to the
    session and commits (success commits).  The store checks the values
    against the columns, draws the id from the sequence, refuses a key
    that is taken, and appends the row; the object then carries its id. *)
Definition insert (d : Question.draft) : M Question.t :=
  session_add (Add d) ;;
  round_trip ;;
  w <- get_world ;;
  q <- lift (Question.row (driver w) (questions_id_seq w) d) ;;
  if existsb (fun r => Question.id r =? Question.id q) (questions w)
  then raise IntegrityError
  else
    put_world (set_pending []
                (set_questions_id_seq (questions_id_seq w + 1)
                  (set_questions (questions w ++ [q]) w))) ;;
    ret q.

(** Modelled from the spec: [question.delete()] marks the object deleted
    and commits; the row with its key leaves the table. *)
Definition delete (q : Question.t) : M unit :=
  session_add (Delete q) ;;
  round_trip ;;
  w <- get_world ;;
  put_world (set_pending []
              (set_questions
                 (filter (fun r => negb (Question.id r =? Question.id q))
                         (questions w)) w)).

End Db.

(** [Question.query] and what the handlers chain onto it. *)
Module Query.

Definition criterion : Type := Question.t -> bool.

Record t : Type := mk {
  criteria : list criterion;
  ordered : bool
}.

(** [Question.query] *)
Definition query : t := mk [] false.

(** [.filter(criterion)] *)
Definition filter (q : t) (c : criterion) : t :=
  mk (criteria q ++ [c]) (ordered q).

(** [.order_by(Question.id)] *)
Definition order_by_id (q : t) : t := mk (criteria q) true.

(** The rows a query selects from a table. *)
Definition rows (q : t) (table : list Question.t) : list Question.t :=
  let selected :=
    List.filter (fun r => forallb (fun c : criterion => c r) (criteria q)) table in
  if ordered q then Question.sort_by_id selected else selected.

(** [.all()] *)
Definition all (q : t) : M (list Question.t) :=
  Db.round_trip ;;
  w <- get_world ;;
  ret (rows q (questions w)).

(** [.one_or_none()] *)
Definition one_or_none (q : t) : M (option Question.t) :=
  l <- all q ;;
  match l with
  | [] => ret None
  | [r] => ret (Some r)
  | _ :: _ :: _ => raise MultipleResultsFound
  end.

(** [Question.id == i] *)
Definition id_eq (i : Z) : criterion := fun r => Question.id r =? i.

(** [Question.category == n] for an integer [n]; a NULL category equals
    nothing. *)
Definition category_is (n : Z) : criterion :=
  fun r => match Question.category r with
           | Some c => c =? n
           | None => false
           end.

(** A value out of a JSON body compared with an integer column: a JSON
    integer is itself, [None] is NULL, anything else is what the driver
    makes of it. *)
Definition operand (drv : Driver.t) (v : json) : outcome (option Z) :=
  match v with
  | JNum n => Return (Some n)
  | JNull => Return None
  | _ => Driver.integer_operand drv v
  end.

(** [Question.category == v] for a value out of a JSON body: [None]
    compares with IS NULL. *)
Definition category_eq_on (drv : Driver.t) (v : json) : outcome criterion :=
  match operand drv v with
  | Return (Some n) => Return (category_is n)
  | Return None => Return (fun r => match Question.category r with
                                    | None => true
                                    | Some _ => false
                                    end)
  | Raise e => Raise e
  end.

(** The elements of an IN list: integers and NULLs. *)
Fixpoint in_list (drv : Driver.t) (l : list json) : outcome (list (option Z)) :=
  match l with
  | [] => Return []
  | v :: l' =>
      match operand drv v with
      | Raise e => Raise e
      | Return x =>
          match in_list drv l' with
          | Raise e => Raise e
          | Return xs => Return (x :: xs)
          end
      end
  end.

Definition is_null (v : option Z) : bool :=
  match v with None => true | Some _ => false end.

Definition is_value (i : Z) (v : option Z) : bool :=
  match v with Some n => n =? i | None => false end.

(** NOT IN is true of a row when its id differs from every element, which
    it cannot be known to do when an element is NULL. *)
Definition not_in (vs : list (option Z)) : criterion :=
  fun r => negb (existsb is_null vs)
           && negb (existsb (is_value (Question.id r)) vs).

(** [Question.id.notin_(v)]: [None], a number and a boolean are no
    sequence and raise; a list gives its elements; what a string or an
    object gives is the driver's. *)
Definition id_notin_on (drv : Driver.t) (v : json) : outcome criterion :=
  match v with
  | JList l =>
      match in_list drv l with
      | Return vs => Return (not_in vs)
      | Raise e => Raise e
      end
  | JNull | JBool _ | JNum _ => Raise TypeError
  | JStr _ | JDict _ =>
      match Driver.sequence_operand drv v with
      | Raise e => Raise e
      | Return l =>
          match in_list drv l with
          | Return vs => Return (not_in vs)
          | Raise e => Raise e
          end
      end
  end.

(** The two criteria as the handlers build them, on the driver of the
    store. *)
Definition category_eq (v : json) : M criterion :=
  fun w => (category_eq_on (driver w) v, w).

Definition id_notin_ (v : json) : M criterion :=
  fun w => (id_notin_on (driver w) v, w).

(** [Question.question.ilike(pattern)] *)
Definition question_ilike (pattern : string) : criterion :=
  fun r => Sql.ilike (Question.question r) pattern.

(** [Category.query.all()] and [Category.query.order_by(Category.id).all()] *)
Definition all_categories (by_id : bool) : M (list Category.t) :=
  Db.round_trip ;;
  w <- get_world ;;
  ret (if by_id then Category.sort_by_id (categories w) else categories w).

End Query.

(** [random.choice(seq)]: IndexError on an empty sequence, else the
    element at an index below [len(seq)] that the generator supplies (the
    raw draw reduced to the range). *)
Module Random.

Definition draw : M nat :=
  fun w => (Return (hd 0%nat (tape w)), set_tape (tl (tape w)) w).

Definition choice {A : Type} (seq : list A) : M A :=
  match seq with
  | [] => raise IndexError
  | x :: _ => r <- draw ;; ret (nth (r mod List.length seq) seq x)
  end.

End Random.

(* ===================================================================== *)
(** ** flaskr/__init__.py *)
(* ===================================================================== *)

Module Flaskr.

(** What a handler reads of the current request: the [page] argument of
    the query string as [request.args.get("page", 1, type = int)] sees it
    ([Some p] for an integer literal, [None] when the argument is missing
    or is no integer), and the JSON document of the body, if there is
    one. *)
Record Request : Type := mkRequest {
  arg_page : option Z;
  json_body : option json
}.

Definition QUESTIONS_PER_PAGE : Z := 10.

(** [request.args.get("page", default, type = int)] *)
Definition args_get_page (request : Request) (default : Z) : Z :=
  match arg_page request with
  | Some p => p
  | None => default
  end.

(** [request.get_json()]: a request that carries no JSON document is
    answered with 400 by the framework (this is what
    [test_create_question_400] and [test_play_quiz_422] observe). *)
Definition get_json (request : Request) : M json :=
  match json_body request with
  | Some body => ret body
  | None => abort 400
  end.

Definition jsonify (v : json) : M json := ret v.

Definition paginate_questions (request : Request)
    (selection : list Question.t) : list json :=
  let page := args_get_page request 1 in
  let start := (page - 1) * QUESTIONS_PER_PAGE in
  let end_ := start + QUESTIONS_PER_PAGE in
  let questions := map Question.format selection in
  let current_questions := slice questions start end_ in
  current_questions.

Definition get_categories (request : Request) : M json :=
  categories <- Query.all_categories true ;;
  when (len categories =? 0) (abort 404) ;;
  let formatted_categories := map Category.format categories in
  jsonify (JDict [("success"%string, JBool true);
                  ("categories"%string, JList formatted_categories)]).

Definition get_questions (request : Request) : M json :=
  questions <- Query.all (Query.order_by_id Query.query) ;;
  let current_questions :=
    if len questions >? 0 then paginate_questions request questions else [] in
  when (len current_questions =? 0) (abort 404) ;;
  categories <- Query.all_categories false ;;
  let formatted_categories := map Category.format categories in
  jsonify (JDict [("success"%string, JBool true);
                  ("questions"%string, JList current_questions);
                  ("total_questions"%string, JNum (len questions));
                  ("categories"%string, JList formatted_categories);
                  ("current_category"%string, JList [])]).

Definition remove_question (request : Request) (id : Z) : M json :=
  question <- Query.one_or_none (Query.filter Query.query (Query.id_eq id)) ;;
  match question with
  | None => abort 404
  | Some question =>
      try
        (Db.delete question ;;
         questions_remain <- Query.all (Query.order_by_id Query.query) ;;
         let current_questions := paginate_questions request questions_remain in
         jsonify (JDict [("success"%string, JBool true);
                         ("questions"%string, JList current_questions);
                         ("total_questions"%string, JNum (len questions_remain));
                         ("deleted"%string, JNum id)]))
      except
        (Db.rollback ;; abort 422)
  end.

Definition create_question (request : Request) : M json :=
  body <- get_json request ;;
  try
    (v_question <- lift (Py.get body "question") ;;
     v_answer <- lift (Py.get body "answer") ;;
     v_category <- lift (Py.get body "category") ;;
     v_difficulty <- lift (Py.get body "difficulty") ;;
     let question := Question.new v_question v_answer v_category v_difficulty in
     question <- Db.insert question ;;
     questions <- Query.all (Query.order_by_id Query.query) ;;
     let current_questions := paginate_questions request questions in
     jsonify (JDict [("success"%string, JBool true);
                     ("questions"%string, JList current_questions);
                     ("total_questions"%string, JNum (len questions));
                     ("created"%string, JNum (Question.id question))]))
  except
    (Db.rollback ;; abort 422).

Section Search.

(** [str(v)] of an object that is not a string, as [str.format] renders
    it; the handler is read for any such rendering. *)
Variable py_str : json -> string.

(** ["%{}%".format(v)] *)
Definition format_pattern (v : json) : string :=
  let rendered := match v with JStr s => s | _ => py_str v end in
  ("%" ++ rendered ++ "%")%string.

Definition search_question (request : Request) : M json :=
  body <- get_json request ;;
  search_term <- lift (Py.get body "searchTerm") ;;
  if truthy search_term then
    (questions <- Query.all
                    (Query.filter (Query.order_by_id Query.query)
                       (Query.question_ilike (format_pattern search_term))) ;;
     when (len questions =? 0) (abort 404) ;;
     let current_questions := paginate_questions request questions in
     jsonify (JDict [("success"%string, JBool true);
                     ("questions"%string, JList current_questions);
                     ("total_questions"%string, JNum (len questions));
                     ("current_category"%string, JList [])]))
  else
    abort 400.

End Search.

Definition get_questions_of_category (request : Request) (cat_id : Z) : M json :=
  questions <- Query.all
                 (Query.order_by_id
                    (Query.filter Query.query (Query.category_is cat_id))) ;;
  let formatted_questions :=
    if len questions >? 0 then map Question.format questions else [] in
  jsonify (JDict [("success"%string, JBool true);
                  ("current_category"%string, JNum cat_id);
                  ("questions"%string, JList formatted_questions);
                  ("total_questions"%string, JNum (len questions))]).

Definition play_quiz (request : Request) : M json :=
  try
    (body <- get_json request ;;
     previous_questions <- lift (Py.get body "previous_questions") ;;
     quiz_category <- lift (Py.get body "quiz_category") ;;
     questions <-
       match quiz_category with
       | JNull =>
           not_previous <- Query.id_notin_ previous_questions ;;
           Query.all (Query.filter Query.query not_previous)
       | _ =>
           category_id <- lift (Py.getitem quiz_category "id") ;;
           in_category <- Query.category_eq category_id ;;
           not_previous <- Query.id_notin_ previous_questions ;;
           Query.all (Query.filter (Query.filter Query.query in_category)
                                   not_previous)
       end ;;
     question <- Random.choice questions ;;
     jsonify (JDict [("success"%string, JBool true);
                     ("question"%string, Question.format question)]))
  except
    (Db.rollback ;; abort 422).

(** The error handlers registered on the application. *)
Definition error_body (code : Z) (message : string) : json :=
  JDict [("success"%string, JBool false);
         ("error"%string, JNum code);
         ("message"%string, JStr message)].

Definition bad_request : json * Z := (error_body 400 "Bad Request", 400).
Definition not_found : json * Z := (error_body 404 "Not Found", 404).
Definition method_not_allowed : json * Z :=
  (error_body 405 "Method Not Allowed", 405).
Definition unprocessable : json * Z := (error_body 422 "Unprocessable", 422).
Definition internal_server_error : json * Z :=
  (error_body 500 "Internal Server Error", 500).

(** How the framework turns what a handler raised into a response: an
    [abort] goes to the handler registered for its code, any other
    exception is an internal server error. *)
Definition handle_exception (e : exn) : json * Z :=
  match e with
  | HTTPException code =>
      if code =? 400 then bad_request
      else if code =? 404 then not_found
      else if code =? 405 then method_not_allowed
      else if code =? 422 then unprocessable
      else if code =? 500 then internal_server_error
      else (JNull, code)
  | _ => internal_server_error
  end.

(** One request served: the response (body and status) and the world it
    leaves. *)
Definition respond (view : M json) (w : World) : (json * Z) * World :=
  match view w with
  | (Return body, w') => ((body, 200), w')
  | (Raise e, w') => (handle_exception e, w')
  end.

End Flaskr.

(* ===================================================================== *)
(** ** Vocabulary of the statements *)
(* ===================================================================== *)

(** The store answers every statement still to come. *)
Definition healthy (w : World) : Prop := Forall (fun b => b = false) (faults w).

(** Reading a response body. *)
Module Wire.

Definition field (key : string) (body : json) : json :=
  match body with
  | JDict d => match Py.assoc key d with Some v => v | None => JNull end
  | _ => JNull
  end.

Definition elements (v : json) : list json :=
  match v with JList l => l | _ => [] end.

(** The ids of the questions a body lists. *)
Definition listed_ids (body : json) : list json :=
  map (field "id") (elements (field "questions" body)).

End Wire.

(** Ascending ids. *)
Definition ascending (l : list Question.t) : Prop :=
  Sorted (fun a b => Question.id a <= Question.id b) l.

(** The page [p] of 10 of a formatted sequence. *)
Definition page_of (p : Z) (l : list json) : list json :=
  slice l ((p - 1) * 10) (p * 10).

(** The bodies of the successful responses. *)
Definition listing_body (current : list json) (total : Z)
    (formatted_categories : list json) : json :=
  JDict [("success"%string, JBool true);
         ("questions"%string, JList current);
         ("total_questions"%string, JNum total);
         ("categories"%string, JList formatted_categories);
         ("current_category"%string, JList [])].

Definition deleted_body (current : list json) (total id : Z) : json :=
  JDict [("success"%string, JBool true);
         ("questions"%string, JList current);
         ("total_questions"%string, JNum total);
         ("deleted"%string, JNum id)].

Definition created_body (current : list json) (total id : Z) : json :=
  JDict [("success"%string, JBool true);
         ("questions"%string, JList current);
         ("total_questions"%string, JNum total);
         ("created"%string, JNum id)].

Definition search_body (current : list json) (total : Z) : json :=
  JDict [("success"%string, JBool true);
         ("questions"%string, JList current);
         ("total_questions"%string, JNum total);
         ("current_category"%string, JList [])].

Definition category_body (cat_id : Z) (formatted : list json) (total : Z) : json :=
  JDict [("success"%string, JBool true);
         ("current_category"%string, JNum cat_id);
         ("questions"%string, JList formatted);
         ("total_questions"%string, JNum total)].

Definition quiz_body (q : Question.t) : json :=
  JDict [("success"%string, JBool true);
         ("question"%string, Question.format q)].

(** The transient question that [create_question] builds out of a body. *)
Definition draft_of (body : json) : Question.draft :=
  Question.new (Wire.field "question" body) (Wire.field "answer" body)
               (Wire.field "category" body) (Wire.field "difficulty" body).

(** The candidates of the quiz: the stored questions whose id is not among
    [previous], of category [cat] when one is given. *)
Definition candidates (previous : list Z) (cat : option Z)
    (table : list Question.t) : list Question.t :=
  filter (fun r =>
            match cat with
            | Some c => Query.category_is c r
            | None => true
            end
            && negb (existsb (Z.eqb (Question.id r)) previous))
         table.

(** Sample data: a question of category 1 under a given id, and a world
    that stores such questions in the given order, with no fault
    scheduled. *)
Definition sample_question (i : Z) : Question.t :=
  Question.mk i (Some "Q"%string) (Some "A"%string) (Some 1) (Some 1).

Definition sample_world (ids : list Z) : World :=
  mkWorld (map sample_question ids) [Category.mk 1 "Science"] 100 [] [] 0 [].

(** A well-formed POST /questions. *)
Definition sample_post : Flaskr.Request :=
  Flaskr.mkRequest None
    (Some (JDict [("question"%string, JStr "Q"); ("answer"%string, JStr "A");
                  ("category"%string, JNum 1); ("difficulty"%string, JNum 1)])).

(** A POST /questions/search for a term, with an optional page. *)
Definition sample_search (page : option Z) (term : string) : Flaskr.Request :=
  Flaskr.mkRequest page (Some (JDict [("searchTerm"%string, JStr term)])).

(** The rows whose question text matches a LIKE pattern, by ascending id. *)
Definition matches (pattern : string) (table : list Question.t) : list Question.t :=
  Question.sort_by_id (filter (Query.question_ilike pattern) table).

(** The rows whose question text contains a term, letters compared
    without case, by ascending id: the match set in the words of the
    specification. *)
Definition containing (term : string) (table : list Question.t) : list Question.t :=
  Question.sort_by_id
    (filter (fun q => Sql.contains_ci (Question.question q) term) table).

(** A term without any of the characters that a LIKE pattern reads as a
    wildcard or an escape. *)
Definition plain (term : string) : Prop :=
  forallb (fun c => negb (Sql.is_wildcard c)) (list_ascii_of_string term) = true.

(** The criterion that [play_quiz] hands to the store for the two values
    it read from the body: the chain of lookups and filters of the handler,
    as one value. *)
Definition quiz_criterion (drv : Driver.t) (previous quiz_category : json) :
    outcome Query.criterion :=
  match quiz_category with
  | JNull => Query.id_notin_on drv previous
  | _ =>
      match Py.getitem quiz_category "id" with
      | Raise e => Raise e
      | Return v =>
          match Query.category_eq_on drv v with
          | Raise e => Raise e
          | Return in_category =>
              match Query.id_notin_on drv previous with
              | Raise e => Raise e
              | Return not_previous =>
                  Return (fun r => in_category r && not_previous r)
              end
          end
      end
  end.

(** A value that is no sequence: iterating it raises. *)
Definition not_a_sequence (v : json) : Prop :=
  match v with
  | JNull | JBool _ | JNum _ => True
  | _ => False
  end.

(** What a body says of the category of the quiz: none (the key is
    missing or null), or the object of a category with an integer id. *)
Definition asks_category (body : json) (cat : option Z) : Prop :=
  (Wire.field "quiz_category" body = JNull /\ cat = None) \/
  (exists c n, Wire.field "quiz_category" body = JDict c /\
               Wire.field "id" (JDict c) = JNum n /\ cat = Some n).

(** A POST /quizzes for a category, with the ids already asked. *)
Definition sample_quiz (cat : Z) (previous : list Z) : Flaskr.Request :=
  Flaskr.mkRequest None
    (Some (JDict [("previous_questions"%string, JList (map JNum previous));
                  ("quiz_category"%string,
                   JDict [("type"%string, JStr "Science");
                          ("id"%string, JNum cat)])])).

(** The routes registered on the application, each with the arguments
    its rule takes from the path, and the view a route dispatches to. *)
Inductive route : Type :=
| GetCategories
| GetQuestions
| RemoveQuestion (id : Z)
| CreateQuestion
| SearchQuestion
| GetQuestionsOfCategory (cat_id : Z)
| PlayQuiz.

Definition view (py_str : json -> string) (r : route)
    (request : Flaskr.Request) : M json :=
  match r with
  | GetCategories => Flaskr.get_categories request
  | GetQuestions => Flaskr.get_questions request
  | RemoveQuestion id => Flaskr.remove_question request id
  | CreateQuestion => Flaskr.create_question request
  | SearchQuestion => Flaskr.search_question py_str request
  | GetQuestionsOfCategory cat_id => Flaskr.get_questions_of_category request cat_id
  | PlayQuiz => Flaskr.play_quiz request
  end.

(** One request served on a route, and a sequence of them served one
    after the other. *)
Definition serve (py_str : json -> string) (r : route)
    (request : Flaskr.Request) (w : World) : (json * Z) * World :=
  Flaskr.respond (view py_str r request) w.

Definition serve_all (py_str : json -> string)
    (calls : list (route * Flaskr.Request)) (w : World) : World :=
  fold_left (fun w' call => snd (serve py_str (fst call) (snd call) w')) calls w.

(** The routes that only read. *)
Definition reads_only (r : route) : bool :=
  match r with
  | RemoveQuestion _ | CreateQuestion => false
  | _ => true
  end.

(** The key of the questions is in order: no id twice, every id below the
    next value of the sequence. *)
Definition key_in_order (w : World) : Prop :=
  NoDup (map Question.id (questions w)) /\
  Forall (fun q => Question.id q < questions_id_seq w) (questions w).

(** A string with its letters A-Z folded to a-z. *)
Fixpoint lower_string (s : string) : string :=
  match s with
  | EmptyString => EmptyString
  | String c s' => String (Sql.lower c) (lower_string s')
  end.

(** The page argument of a request for page [p]. *)
Definition page_request (p : nat) : Flaskr.Request :=
  Flaskr.mkRequest (Some (Z.of_nat p)) None.

(** What one request can do to the tables: nothing, or remove the
    questions of one id, or append one question under the next id of the
    sequence, which no stored question has; the categories stay. *)
Definition table_effect (w w' : World) : Prop :=
  categories w' = categories w /\
  ((questions w' = questions w /\ questions_id_seq w' = questions_id_seq w) \/
   (exists i,
      questions w' = filter (fun r => negb (Question.id r =? i)) (questions w) /\
      questions_id_seq w' = questions_id_seq w) \/
   (exists q,
      Question.id q = questions_id_seq w /\
      (forall r, In r (questions w) -> Question.id r <> Question.id q) /\
      questions w' = questions w ++ [q] /\
      questions_id_seq w' = questions_id_seq w + 1)).

(** The status codes a route can answer with. *)
Definition statuses (r : route) : list Z :=
  match r with
  | GetCategories => [200; 404; 500]
  | GetQuestions => [200; 404; 500]
  | RemoveQuestion _ => [200; 404; 422; 500]
  | CreateQuestion => [200; 400; 422]
  | SearchQuestion => [200; 400; 404; 500]
  | GetQuestionsOfCategory _ => [200; 500]
  | PlayQuiz => [200; 422]
  end.

(** A response in one of the two shapes of the application: status 200
    with success true, or the body of a registered error handler with its
    own code as status. *)
Definition well_shaped (answer : json * Z) : Prop :=
  (snd answer = 200 /\ Wire.field "success" (fst answer) = JBool true) \/
  answer = Flaskr.bad_request \/ answer = Flaskr.not_found \/
  answer = Flaskr.unprocessable \/ answer = Flaskr.internal_server_error.

(** No stored question has the id, and the sequence is past it. *)
Definition gone (id : Z) (w : World) : Prop :=
  id < questions_id_seq w /\
  forall q, In q (questions w) -> Question.id q <> id.

(* ===================================================================== *)
(** ** Slices *)
(* ===================================================================== *)

Section Slices.

Context {A : Type}.
Implicit Types l : list A.

Lemma slice_forward l (a b : Z) :
  0 <= a ->
  0 <= b ->
  slice l a b =
  firstn (Z.to_nat (Z.min b (len l) - Z.min a (len l)))
         (skipn (Z.to_nat (Z.min a (len l))) l).
Proof.
  intros Ha Hb. unfold slice, adjust_index, len.
  destruct (Z.ltb_spec a 0); [lia |].
  destruct (Z.ltb_spec b 0); [lia | reflexivity].
Qed.

Lemma slice_backward l (a b : Z) :
  a < 0 ->
  b < 0 ->
  slice l a b =
  firstn (Z.to_nat (Z.max 0 (b + len l) - Z.max 0 (a + len l)))
         (skipn (Z.to_nat (Z.max 0 (a + len l))) l).
Proof.
  intros Ha Hb. unfold slice, adjust_index, len.
  destruct (Z.ltb_spec a 0); [| lia].
  destruct (Z.ltb_spec b 0); [reflexivity | lia].
Qed.

Lemma adjust_index_range (n i : Z) : 0 <= n -> 0 <= adjust_index n i <= n.
Proof.
  intros Hn. unfold adjust_index. destruct (Z.ltb_spec i 0); lia.
Qed.

Lemma slice_nil (a b : Z) : slice (@nil A) a b = [].
Proof.
  unfold slice. rewrite skipn_nil. apply firstn_nil.
Qed.

Lemma slice_past_end l (a b : Z) : len l <= a -> slice l a b = [].
Proof.
  intros Ha. unfold slice, len in *.
  assert (Hlo : adjust_index (Z.of_nat (List.length l)) a = Z.of_nat (List.length l)).
  { unfold adjust_index. destruct (Z.ltb_spec a 0); lia. }
  rewrite Hlo, Nat2Z.id, skipn_all. apply firstn_nil.
Qed.

Lemma slice_stop_zero l (a : Z) : slice l a 0 = [].
Proof.
  unfold slice.
  pose proof (adjust_index_range (Z.of_nat (List.length l)) a
                (Nat2Z.is_nonneg _)) as Hlo.
  assert (Hhi : adjust_index (Z.of_nat (List.length l)) 0 = 0).
  { unfold adjust_index. simpl. lia. }
  rewrite Hhi.
  replace (Z.to_nat (0 - adjust_index (Z.of_nat (List.length l)) a)) with 0%nat by lia.
  reflexivity.
Qed.

Lemma In_firstn l (n : nat) (x : A) : In x (firstn n l) -> In x l.
Proof.
  intros H. rewrite <- (firstn_skipn n l). apply in_or_app. now left.
Qed.

Lemma In_skipn l (n : nat) (x : A) : In x (skipn n l) -> In x l.
Proof.
  intros H. rewrite <- (firstn_skipn n l). apply in_or_app. now right.
Qed.

Lemma slice_In l (a b : Z) (x : A) : In x (slice l a b) -> In x l.
Proof.
  unfold slice. intros H.
  apply In_firstn in H. apply In_skipn in H. exact H.
Qed.

(** The element at index [i] lies in every forward slice that spans [i]. *)
Lemma slice_covers l (a b : Z) (i : nat) (x : A) :
  nth_error l i = Some x ->
  0 <= a <= Z.of_nat i ->
  Z.of_nat i < b ->
  In x (slice l a b).
Proof.
  intros Hx Ha Hb.
  assert (Hi : (i < List.length l)%nat).
  { apply nth_error_Some. congruence. }
  rewrite slice_forward by lia. unfold len.
  apply nth_error_In with (n := (i - Z.to_nat a)%nat).
  rewrite nth_error_firstn.
  replace (Z.min a (Z.of_nat (List.length l))) with a by lia.
  destruct (Nat.ltb_spec (i - Z.to_nat a)
              (Z.to_nat (Z.min b (Z.of_nat (List.length l)) - a))) as [_ | Hge];
    [| lia].
  rewrite nth_error_skipn.
  replace (Z.to_nat a + (i - Z.to_nat a))%nat with i by lia.
  exact Hx.
Qed.

(** Reading a slice by position. *)
Lemma slice_nth_error l (a b : Z) (k : nat) :
  nth_error (slice l a b) k =
  if (k <? Z.to_nat (adjust_index (len l) b - adjust_index (len l) a))%nat
  then nth_error l (Z.to_nat (adjust_index (len l) a) + k)
  else None.
Proof.
  unfold slice, len. rewrite nth_error_firstn, nth_error_skipn. reflexivity.
Qed.

End Slices.

Lemma slice_map {A B : Type} (f : A -> B) (l : list A) (a b : Z) :
  slice (map f l) a b = map f (slice l a b).
Proof.
  unfold slice. rewrite length_map, skipn_map, firstn_map. reflexivity.
Qed.

(* ===================================================================== *)
(** ** ORDER BY id *)
(* ===================================================================== *)

Lemma insert_by_id_perm (q : Question.t) (l : list Question.t) :
  Permutation (q :: l) (Question.insert_by_id q l).
Proof.
  induction l as [| r l IH]; simpl.
  - apply Permutation_refl.
  - destruct (Question.id q <=? Question.id r).
    + apply Permutation_refl.
    + eapply perm_trans; [apply perm_swap |]. now apply perm_skip.
Qed.

Lemma sort_by_id_perm (l : list Question.t) :
  Permutation l (Question.sort_by_id l).
Proof.
  induction l as [| q l IH]; simpl.
  - apply perm_nil.
  - eapply perm_trans; [apply perm_skip, IH |]. apply insert_by_id_perm.
Qed.

Lemma insert_by_id_hd (q a : Question.t) (l : list Question.t) :
  Question.id a <= Question.id q ->
  HdRel (fun x y => Question.id x <= Question.id y) a l ->
  HdRel (fun x y => Question.id x <= Question.id y) a (Question.insert_by_id q l).
Proof.
  intros Haq Hl. destruct l as [| r l]; simpl.
  - now constructor.
  - destruct (Question.id q <=? Question.id r); constructor; [exact Haq |].
    now inversion Hl.
Qed.

Lemma insert_by_id_ascending (q : Question.t) (l : list Question.t) :
  ascending l -> ascending (Question.insert_by_id q l).
Proof.
  unfold ascending. induction l as [| r l IH]; simpl; intros Hl.
  - repeat constructor.
  - destruct (Z.leb_spec (Question.id q) (Question.id r)) as [Hle | Hgt].
    + constructor; [exact Hl | now constructor].
    + inversion Hl as [| ? ? Hs Hh]; subst.
      constructor; [now apply IH |].
      apply insert_by_id_hd; [lia | exact Hh].
Qed.

Lemma sort_by_id_ascending (l : list Question.t) :
  ascending (Question.sort_by_id l).
Proof.
  induction l as [| q l IH]; simpl.
  - constructor.
  - now apply insert_by_id_ascending.
Qed.

Lemma sort_by_id_length (l : list Question.t) :
  List.length (Question.sort_by_id l) = List.length l.
Proof.
  symmetry. apply Permutation_length, sort_by_id_perm.
Qed.

Lemma sort_by_id_In (l : list Question.t) (q : Question.t) :
  In q (Question.sort_by_id l) <-> In q l.
Proof.
  split; intros H.
  - eapply Permutation_in; [apply Permutation_sym, sort_by_id_perm | exact H].
  - eapply Permutation_in; [apply sort_by_id_perm | exact H].
Qed.

Lemma sort_by_id_nil_iff (l : list Question.t) :
  Question.sort_by_id l = [] <-> l = [].
Proof.
  split; intros H.
  - apply length_zero_iff_nil. rewrite <- sort_by_id_length, H. reflexivity.
  - subst. reflexivity.
Qed.

(* ===================================================================== *)
(** ** What a query selects *)
(* ===================================================================== *)

Lemma filter_all_true {A : Type} (f : A -> bool) (l : list A) :
  (forall x, f x = true) -> filter f l = l.
Proof.
  intros Hf. induction l as [| x l IH]; simpl; [reflexivity |].
  now rewrite Hf, IH.
Qed.

Lemma rows_ordered (table : list Question.t) :
  Query.rows (Query.order_by_id Query.query) table = Question.sort_by_id table.
Proof.
  unfold Query.rows. simpl. now rewrite filter_all_true.
Qed.

Lemma rows_filter_one (c : Query.criterion) (table : list Question.t) :
  Query.rows (Query.filter Query.query c) table = filter c table.
Proof.
  unfold Query.rows. simpl. apply filter_ext. intros r.
  now rewrite andb_true_r.
Qed.

Lemma rows_ordered_filter (c : Query.criterion) (table : list Question.t) :
  Query.rows (Query.order_by_id (Query.filter Query.query c)) table =
  Question.sort_by_id (filter c table).
Proof.
  unfold Query.rows. simpl. f_equal. apply filter_ext. intros r.
  now rewrite andb_true_r.
Qed.

Lemma rows_filter_ordered (c : Query.criterion) (table : list Question.t) :
  Query.rows (Query.filter (Query.order_by_id Query.query) c) table =
  Question.sort_by_id (filter c table).
Proof.
  unfold Query.rows. simpl. f_equal. apply filter_ext. intros r.
  now rewrite andb_true_r.
Qed.

Lemma rows_filter_two (c1 c2 : Query.criterion) (table : list Question.t) :
  Query.rows (Query.filter (Query.filter Query.query c1) c2) table =
  filter (fun r => c1 r && c2 r) table.
Proof.
  unfold Query.rows. simpl. apply filter_ext. intros r.
  now rewrite andb_true_r.
Qed.

(* ===================================================================== *)
(** ** Round trips *)
(* ===================================================================== *)

Lemma healthy_hd (w : World) : healthy w -> hd false (faults w) = false.
Proof.
  unfold healthy. intros H. destruct (faults w); [reflexivity |].
  now inversion H.
Qed.

Lemma healthy_tick (w : World) : healthy w -> healthy (tick w).
Proof.
  unfold healthy, tick. simpl. intros H. destruct (faults w); [exact H |].
  now inversion H.
Qed.

Lemma healthy_faults (w w' : World) :
  faults w' = faults w -> healthy w -> healthy w'.
Proof.
  unfold healthy. now intros ->.
Qed.

Lemma round_trip_ok (w : World) :
  hd false (faults w) = false -> Db.round_trip w = (Return tt, tick w).
Proof.
  unfold Db.round_trip. now intros ->.
Qed.

Lemma round_trip_fails (w : World) :
  hd false (faults w) = true -> Db.round_trip w = (Raise OperationalError, tick w).
Proof.
  unfold Db.round_trip. now intros ->.
Qed.

Lemma all_ok (q : Query.t) (w : World) :
  hd false (faults w) = false ->
  Query.all q w = (Return (Query.rows q (questions w)), tick w).
Proof.
  intros H. unfold Query.all, bind. now rewrite round_trip_ok.
Qed.

Lemma all_fails (q : Query.t) (w : World) :
  hd false (faults w) = true ->
  Query.all q w = (Raise OperationalError, tick w).
Proof.
  intros H. unfold Query.all, bind. now rewrite round_trip_fails.
Qed.

Lemma all_categories_ok (by_id : bool) (w : World) :
  hd false (faults w) = false ->
  Query.all_categories by_id w =
  (Return (if by_id then Category.sort_by_id (categories w) else categories w),
   tick w).
Proof.
  intros H. unfold Query.all_categories, bind. now rewrite round_trip_ok.
Qed.

(** Whatever a query does, it leaves the tables alone. *)
Lemma all_questions_kept {q : Query.t} {w w' : World} {o : outcome (list Question.t)} :
  Query.all q w = (o, w') -> w' = tick w.
Proof.
  unfold Query.all, bind, Db.round_trip.
  destruct (hd false (faults w)); simpl; now intros [= _ <-].
Qed.

(* ===================================================================== *)
(** ** GET /questions *)
(* ===================================================================== *)

Import Flaskr.

Lemma paginate_page (request : Request) (selection : list Question.t) :
  paginate_questions request selection =
  page_of (args_get_page request 1) (map Question.format selection).
Proof.
  unfold paginate_questions, page_of, QUESTIONS_PER_PAGE. f_equal. lia.
Qed.

Lemma paginate_nil (request : Request) : paginate_questions request [] = [].
Proof.
  unfold paginate_questions. simpl. apply slice_nil.
Qed.

Lemma len_cons_eqb {A : Type} (x : A) (l : list A) : (len (x :: l) =? 0) = false.
Proof.
  unfold len. simpl List.length. apply Z.eqb_neq. lia.
Qed.

Lemma len_cons_gtb {A : Type} (x : A) (l : list A) : (len (x :: l) >? 0) = true.
Proof.
  unfold len. simpl List.length. apply Z.gtb_lt. lia.
Qed.

Lemma len_map {A B : Type} (f : A -> B) (l : list A) : len (map f l) = len l.
Proof.
  unfold len. now rewrite length_map.
Qed.

Lemma len_sort (l : list Question.t) : len (Question.sort_by_id l) = len l.
Proof.
  unfold len. now rewrite sort_by_id_length.
Qed.

(** The run of the listing while the store answers. *)
Lemma get_questions_run (request : Request) (w : World) :
  healthy w ->
  get_questions request w =
  match page_of (args_get_page request 1)
                (map Question.format (Question.sort_by_id (questions w))) with
  | [] => (Raise (HTTPException 404), tick w)
  | q :: current =>
      (Return (listing_body (q :: current) (len (questions w))
                 (map Category.format (categories w))),
       tick (tick w))
  end.
Proof.
  intros Hw. unfold get_questions, bind.
  rewrite all_ok by now apply healthy_hd.
  rewrite rows_ordered.
  assert (Hcur : (if len (Question.sort_by_id (questions w)) >? 0
                  then paginate_questions request (Question.sort_by_id (questions w))
                  else []) =
                 page_of (args_get_page request 1)
                   (map Question.format (Question.sort_by_id (questions w)))).
  { rewrite <- paginate_page.
    destruct (Question.sort_by_id (questions w)) as [| r l].
    - now rewrite paginate_nil.
    - now rewrite len_cons_gtb. }
  rewrite Hcur.
  destruct (page_of _ _) as [| q current].
  - reflexivity.
  - rewrite len_cons_eqb. unfold when, ret.
    rewrite all_categories_ok by now apply healthy_hd, healthy_tick.
    unfold jsonify, ret, listing_body. now rewrite len_sort.
Qed.

(** Beyond the last page there is nothing. *)
Lemma page_of_beyond {A : Type} (f : A -> json) (l : list A) (p : Z) :
  p > (len l + 9) / 10 -> page_of p (map f l) = [].
Proof.
  intros Hp. unfold page_of. apply slice_past_end. rewrite len_map.
  pose proof (Z.div_mod (len l + 9) 10 ltac:(lia)) as Hdm.
  pose proof (Z.mod_pos_bound (len l + 9) 10 ltac:(lia)) as Hmod.
  lia.
Qed.



Lemma get_questions_ok (request : Request) (w : World) :
  healthy w ->
  page_of (args_get_page request 1)
    (map Question.format (Question.sort_by_id (questions w))) <> [] ->
  respond (get_questions request) w =
  ((listing_body
      (page_of (args_get_page request 1)
         (map Question.format (Question.sort_by_id (questions w))))
      (len (questions w)) (map Category.format (categories w)), 200),
   tick (tick w)).
Proof.
  intros Hw Hne. unfold respond. rewrite get_questions_run by exact Hw.
  destruct (page_of _ _); [congruence | reflexivity].
Qed.

Lemma get_questions_404 (request : Request) (w : World) :
  healthy w ->
  page_of (args_get_page request 1)
    (map Question.format (Question.sort_by_id (questions w))) = [] ->
  respond (get_questions request) w = (not_found, tick w).
Proof.
  intros Hw He. unfold respond. rewrite get_questions_run by exact Hw.
  now rewrite He.
Qed.

Lemma page_of_zero {A : Type} (l : list A) (f : A -> json) :
  page_of 0 (map f l) = [].
Proof.
  unfold page_of. simpl. apply slice_stop_zero.
Qed.

(** A negative page counts its bounds from the end of the sequence. *)
Lemma page_of_negative (l : list json) (p : Z) :
  p < 0 ->
  page_of p l =
  firstn (Z.to_nat (Z.max 0 (p * 10 + len l) - Z.max 0 ((p - 1) * 10 + len l)))
         (skipn (Z.to_nat (Z.max 0 ((p - 1) * 10 + len l))) l).
Proof.
  intros Hp. unfold page_of. apply slice_backward; lia.
Qed.

(** C9. Page 0 gives the slice [-10 : 0), which is empty whatever is
    stored, so the listing answers 404; a negative page p gives bounds
    (p-1)*10 and p*10 that count from the end of the list; with more than
    20 questions stored, page -1 answers 200 with the 10 questions at the
    positions total-20 .. total-11 of the ascending order. *)
Theorem get_questions_page_zero_and_negative (request : Request) (w : World) :
  healthy w ->
  let formatted := map Question.format (Question.sort_by_id (questions w)) in
  let total := len (questions w) in
  (arg_page request = Some 0 ->
   page_of 0 formatted = [] /\
   fst (respond (get_questions request) w) = not_found) /\
  (forall p, p < 0 -> arg_page request = Some p ->
   let lo := Z.max 0 (total + (p - 1) * 10) in
   let hi := Z.max 0 (total + p * 10) in
   let current := firstn (Z.to_nat (hi - lo)) (skipn (Z.to_nat lo) formatted) in
   (current = [] -> fst (respond (get_questions request) w) = not_found) /\
   (current <> [] ->
    fst (respond (get_questions request) w) =
    (listing_body current total (map Category.format (categories w)), 200))) /\
  (arg_page request = Some (-1) -> total > 20 ->
   exists current,
     fst (respond (get_questions request) w) =
     (listing_body current total (map Category.format (categories w)), 200) /\
     List.length current = 10%nat /\
     forall k, (k < 10)%nat ->
       nth_error current k = nth_error formatted (Z.to_nat (total - 20) + k)).
Proof.
  intros Hw formatted total.
  assert (Hlen : len formatted = total).
  { unfold formatted, total. now rewrite len_map, len_sort. }
  assert (Hneg : forall p, p < 0 -> arg_page request = Some p ->
            page_of (args_get_page request 1) formatted =
            firstn (Z.to_nat (Z.max 0 (total + p * 10) - Z.max 0 (total + (p - 1) * 10)))
                   (skipn (Z.to_nat (Z.max 0 (total + (p - 1) * 10))) formatted)).
  { intros p Hp Hreq. unfold args_get_page. rewrite Hreq.
    rewrite page_of_negative by exact Hp. rewrite Hlen.
    now rewrite (Z.add_comm (p * 10)), (Z.add_comm ((p - 1) * 10)). }
  split; [| split].
  - intros Hreq. split; [apply page_of_zero |].
    rewrite get_questions_404; [reflexivity | exact Hw |].
    unfold args_get_page. rewrite Hreq. apply page_of_zero.
  - intros p Hp Hreq lo hi current.
    specialize (Hneg p Hp Hreq). fold lo hi current in Hneg. split; intros Hcur.
    + rewrite get_questions_404; [reflexivity | exact Hw |].
      fold formatted. now rewrite Hneg.
    + rewrite get_questions_ok; [| exact Hw | fold formatted; now rewrite Hneg].
      fold formatted total. now rewrite Hneg.
  - intros Hreq Htotal.
    specialize (Hneg (-1) ltac:(lia) Hreq).
    replace (Z.max 0 (total + -1 * 10)) with (total - 10) in Hneg by lia.
    replace (Z.max 0 (total + (-1 - 1) * 10)) with (total - 20) in Hneg by lia.
    replace (Z.to_nat (total - 10 - (total - 20))) with 10%nat in Hneg by lia.
    assert (Hcount : List.length (firstn 10 (skipn (Z.to_nat (total - 20)) formatted)) = 10%nat).
    { rewrite length_firstn, length_skipn. unfold len in Hlen. lia. }
    exists (firstn 10 (skipn (Z.to_nat (total - 20)) formatted)).
    split; [| split].
    + rewrite get_questions_ok; [| exact Hw |].
      * fold formatted total. now rewrite Hneg.
      * fold formatted. rewrite Hneg. intros He. rewrite He in Hcount. discriminate.
    + exact Hcount.
    + intros k Hk. rewrite nth_error_firstn, nth_error_skipn.
      destruct (Nat.ltb_spec k 10); [reflexivity | lia].
Qed.

Lemma get_questions_page_zero_and_negative_witness :
  fst (respond (get_questions (mkRequest (Some 0) None)) (sample_world [3; 1; 2])) =
  not_found.
Proof.
  assert (Hw : healthy (sample_world [3; 1; 2])) by constructor.
  destruct (get_questions_page_zero_and_negative (mkRequest (Some 0) None) _ Hw)
    as (Hzero & _).
  now destruct (Hzero eq_refl).
Defined.

(* ===================================================================== *)
(** ** GET /categories/<cat_id>/questions *)
(* ===================================================================== *)

Lemma category_is_spec (cat_id : Z) (q : Question.t) :
  Query.category_is cat_id q = true <-> Question.category q = Some cat_id.
Proof.
  unfold Query.category_is. destruct (Question.category q) as [c |].
  - rewrite Z.eqb_eq. split; [now intros -> | now intros [= ->]].
  - split; discriminate.
Qed.

Lemma get_questions_of_category_run (request : Request) (cat_id : Z) (w : World) :
  hd false (faults w) = false ->
  get_questions_of_category request cat_id w =
  let matching :=
    Question.sort_by_id (filter (Query.category_is cat_id) (questions w)) in
  (Return (category_body cat_id (map Question.format matching) (len matching)),
   tick w).
Proof.
  intros Hw. unfold get_questions_of_category, bind.
  rewrite all_ok by exact Hw. rewrite rows_ordered_filter.
  unfold jsonify, ret, category_body. cbv zeta.
  destruct (Question.sort_by_id _) as [| r l].
  - reflexivity.
  - now rewrite len_cons_gtb.
Qed.

(** C6. The listing of a category answers 200 with all the questions of
    the category, in ascending order of id and not cut into pages, and with
    their count; when the category has no question the answer is still a
    success, with an empty list, whereas the global listing answers 404
    when its page is empty. *)
Theorem get_questions_of_category_all (request : Request) (cat_id : Z) (w : World) :
  healthy w ->
  let matching :=
    Question.sort_by_id (filter (Query.category_is cat_id) (questions w)) in
  fst (respond (get_questions_of_category request cat_id) w) =
  (category_body cat_id (map Question.format matching) (len matching), 200) /\
  ascending matching /\
  Permutation (filter (Query.category_is cat_id) (questions w)) matching /\
  (forall q, In q matching <->
             In q (questions w) /\ Question.category q = Some cat_id) /\
  ((forall q, In q (questions w) -> Question.category q <> Some cat_id) ->
   fst (respond (get_questions_of_category request cat_id) w) =
   (category_body cat_id [] 0, 200)) /\
  (page_of (args_get_page request 1)
     (map Question.format (Question.sort_by_id (questions w))) = [] ->
   fst (respond (get_questions request) w) = not_found).
Proof.
  intros Hw matching.
  assert (Hrun : fst (respond (get_questions_of_category request cat_id) w) =
                 (category_body cat_id (map Question.format matching) (len matching), 200)).
  { unfold respond.
    rewrite get_questions_of_category_run by now apply healthy_hd.
    reflexivity. }
  assert (Hin : forall q, In q matching <->
                  In q (questions w) /\ Question.category q = Some cat_id).
  { intros q. unfold matching.
    now rewrite sort_by_id_In, filter_In, category_is_spec. }
  repeat split.
  - exact Hrun.
  - apply sort_by_id_ascending.
  - apply sort_by_id_perm.
  - now apply Hin.
  - now apply Hin.
  - now apply Hin.
  - intros Hnone. rewrite Hrun.
    destruct matching as [| q l] eqn:Hm; [reflexivity |].
    exfalso. destruct (proj1 (Hin q) (or_introl eq_refl)) as [Hq Hc].
    exact (Hnone q Hq Hc).
  - intros He. now rewrite get_questions_404.
Qed.

Lemma get_questions_of_category_all_witness :
  fst (respond (get_questions_of_category (mkRequest None None) 9)
         (sample_world [3; 1; 2])) =
  (category_body 9 [] 0, 200).
Proof.
  assert (Hw : healthy (sample_world [3; 1; 2])) by constructor.
  destruct (get_questions_of_category_all (mkRequest None None) 9 _ Hw)
    as (Hrun & _).
  exact Hrun.
Defined.

(* ===================================================================== *)
(** ** DELETE /questions/<id> *)
(* ===================================================================== *)

(** The run of the handler, case by case: the lookup, the delete with its
    commit, the second listing. *)
Lemma remove_question_run (request : Request) (id : Z) (w : World) :
  remove_question request id w =
  if hd false (faults w) then (Raise OperationalError, tick w) else
  match filter (Query.id_eq id) (questions w) with
  | [] => (Raise (HTTPException 404), tick w)
  | [q] =>
      let w1 := tick (set_pending (pending w ++ [Delete q]) (tick w)) in
      if hd false (tl (faults w)) then (Raise (HTTPException 422), set_pending [] w1)
      else
        let remaining :=
          filter (fun r => negb (Question.id r =? Question.id q)) (questions w) in
        let w2 := tick (set_pending [] (set_questions remaining w1)) in
        if hd false (tl (tl (faults w)))
        then (Raise (HTTPException 422), set_pending [] w2)
        else (Return (deleted_body
                        (paginate_questions request (Question.sort_by_id remaining))
                        (len remaining) id), w2)
  | _ :: _ :: _ => (Raise MultipleResultsFound, tick w)
  end.
Proof.
  unfold remove_question, Query.one_or_none, bind at 1 2.
  destruct (hd false (faults w)) eqn:H1.
  - now rewrite all_fails.
  - rewrite all_ok by exact H1. rewrite rows_filter_one.
    destruct (filter (Query.id_eq id) (questions w)) as [| q [| q' l]];
      try reflexivity.
    unfold ret, try_except, Db.delete, Db.session_add, bind, get_world, put_world.
    cbv zeta.
    rewrite (surjective_pairing (Db.round_trip _)).
    unfold Db.round_trip. simpl faults. simpl hd.
    destruct (hd false (tl (faults w))) eqn:H2; simpl.
    + reflexivity.
    + unfold Query.all, bind, Db.round_trip. simpl.
      destruct (hd false (tl (tl (faults w)))) eqn:H3; simpl.
      * reflexivity.
      * unfold Query.rows. simpl. rewrite filter_all_true by reflexivity.
        unfold deleted_body, len. rewrite sort_by_id_length. reflexivity.
Qed.

Lemma found_by_id (id : Z) (q : Question.t) (table : list Question.t) :
  filter (Query.id_eq id) table = [q] -> Question.id q = id.
Proof.
  intros H.
  assert (Hin : In q (filter (Query.id_eq id) table)) by (rewrite H; now left).
  apply filter_In in Hin. destruct Hin as [_ Hid].
  unfold Query.id_eq in Hid. now apply Z.eqb_eq.
Qed.

Lemma filter_partition_length {A : Type} (f : A -> bool) (l : list A) :
  (List.length (filter f l) + List.length (filter (fun x => negb (f x)) l))%nat =
  List.length l.
Proof.
  induction l as [| x l IH]; simpl; [reflexivity |].
  destruct (f x); simpl; lia.
Qed.

Lemma remaining_len (id : Z) (q : Question.t) (table : list Question.t) :
  filter (Query.id_eq id) table = [q] ->
  len (filter (fun r => negb (Question.id r =? id)) table) = len table - 1.
Proof.
  intros H. unfold len.
  pose proof (filter_partition_length (Query.id_eq id) table) as Hp.
  rewrite H in Hp. unfold Query.id_eq in Hp. simpl in Hp. lia.
Qed.




(** When the listing that follows a committed delete fails, the answer is
    422 although the question is gone. *)
Lemma remove_question_listing_fails (request : Request) (id : Z) (q : Question.t)
    (w : World) :
  hd false (faults w) = false ->
  filter (Query.id_eq id) (questions w) = [q] ->
  hd false (tl (faults w)) = false ->
  hd false (tl (tl (faults w))) = true ->
  fst (respond (remove_question request id) w) = unprocessable /\
  questions (snd (respond (remove_question request id) w)) =
  filter (fun r => negb (Question.id r =? id)) (questions w).
Proof.
  intros H1 Hq H2 H3. unfold respond. rewrite remove_question_run.
  rewrite H1, Hq. cbv zeta. rewrite H2, H3. simpl.
  now rewrite (found_by_id id q _ Hq).
Qed.

(* ===================================================================== *)
(** ** A change and the listing after it *)
(* ===================================================================== *)

(** The listing, whatever the store does. *)
Lemma get_questions_cases (request : Request) (w : World) :
  get_questions request w =
  if hd false (faults w) then (Raise OperationalError, tick w) else
  match page_of (args_get_page request 1)
                (map Question.format (Question.sort_by_id (questions w))) with
  | [] => (Raise (HTTPException 404), tick w)
  | q :: current =>
      if hd false (tl (faults w)) then (Raise OperationalError, tick (tick w))
      else (Return (listing_body (q :: current) (len (questions w))
                      (map Category.format (categories w))),
            tick (tick w))
  end.
Proof.
  unfold get_questions, bind at 1.
  destruct (hd false (faults w)) eqn:H1.
  - now rewrite all_fails.
  - rewrite all_ok by exact H1. rewrite rows_ordered.
    assert (Hcur : (if len (Question.sort_by_id (questions w)) >? 0
                    then paginate_questions request (Question.sort_by_id (questions w))
                    else []) =
                   page_of (args_get_page request 1)
                     (map Question.format (Question.sort_by_id (questions w)))).
    { rewrite <- paginate_page.
      destruct (Question.sort_by_id (questions w)) as [| r l].
      - now rewrite paginate_nil.
      - now rewrite len_cons_gtb. }
    rewrite Hcur.
    destruct (page_of _ _) as [| q current]; [reflexivity |].
    unfold bind. rewrite len_cons_eqb. unfold when, ret.
    unfold Query.all_categories, bind, Db.round_trip. simpl.
    destruct (hd false (tl (faults w))); simpl; [reflexivity |].
    unfold listing_body. now rewrite len_sort.
Qed.

(** A listing that answers 200 answers with a page of the stored
    questions and their count. *)
Lemma get_questions_success (request : Request) (w w' : World) (body : json) :
  respond (get_questions request) w = ((body, 200), w') ->
  body = listing_body
           (page_of (args_get_page request 1)
              (map Question.format (Question.sort_by_id (questions w))))
           (len (questions w)) (map Category.format (categories w)).
Proof.
  unfold respond. rewrite get_questions_cases.
  destruct (hd false (faults w)); [discriminate |].
  destruct (page_of _ _) as [| q current]; [discriminate |].
  destruct (hd false (tl (faults w))); [discriminate |].
  now intros [= <- _].
Qed.

Lemma field_id_format (q : Question.t) :
  Wire.field "id" (Question.format q) = JNum (Question.id q).
Proof. reflexivity. Qed.

(** The ids on a page are ids of the sequence. *)
Lemma listed_on_page (p : Z) (l : list Question.t) (i : Z) :
  In (JNum i) (map (Wire.field "id") (page_of p (map Question.format l))) ->
  exists q, In q l /\ Question.id q = i.
Proof.
  intros H. apply in_map_iff in H. destruct H as (v & Hv & Hin).
  unfold page_of in Hin. apply slice_In in Hin.
  apply in_map_iff in Hin. destruct Hin as (q & <- & Hq).
  exists q. split; [exact Hq |]. rewrite field_id_format in Hv. congruence.
Qed.

(** The element at position [k] is on page [k / 10 + 1]. *)
Lemma page_of_position (l : list Question.t) (k : nat) (q : Question.t) :
  nth_error l k = Some q ->
  In (JNum (Question.id q))
     (map (Wire.field "id")
        (page_of (Z.of_nat k / 10 + 1) (map Question.format l))).
Proof.
  intros Hk. apply in_map_iff. exists (Question.format q).
  split; [apply field_id_format |].
  unfold page_of. apply slice_covers with (i := k).
  - now rewrite nth_error_map, Hk.
  - pose proof (Z.div_mod (Z.of_nat k) 10 ltac:(lia)).
    pose proof (Z.mod_pos_bound (Z.of_nat k) 10 ltac:(lia)). lia.
  - pose proof (Z.div_mod (Z.of_nat k) 10 ltac:(lia)).
    pose proof (Z.mod_pos_bound (Z.of_nat k) 10 ltac:(lia)). lia.
Qed.

(** A DELETE that answers 200 found the one question of that id and left
    the others. *)
Lemma remove_question_success (request : Request) (id : Z) (w w' : World)
    (body : json) :
  respond (remove_question request id) w = ((body, 200), w') ->
  exists q,
    filter (Query.id_eq id) (questions w) = [q] /\
    questions w' = filter (fun r => negb (Question.id r =? id)) (questions w) /\
    body = deleted_body
             (page_of (args_get_page request 1)
                (map Question.format (Question.sort_by_id (questions w'))))
             (len (questions w')) id.
Proof.
  unfold respond. rewrite remove_question_run.
  destruct (hd false (faults w)); [discriminate |].
  destruct (filter (Query.id_eq id) (questions w)) as [| q [| q' l]] eqn:Hq;
    try discriminate.
  cbv zeta.
  destruct (hd false (tl (faults w))); [discriminate |].
  destruct (hd false (tl (tl (faults w)))); [discriminate |].
  intros [= <- <-]. exists q. simpl.
  rewrite (found_by_id id q _ Hq), paginate_page. now repeat split.
Qed.

(** C7. After a DELETE of an id that answered 200, the count it reports
    and the count of every later listing are one less than the count
    before, and no later listing shows the id; such a DELETE and such a
    listing exist whenever the store answers. *)
Theorem delete_then_list (request : Request) (id : Z) (w w' : World) (body : json) :
  respond (remove_question request id) w = ((body, 200), w') ->
  Wire.field "total_questions" body = JNum (len (questions w) - 1) /\
  Wire.field "deleted" body = JNum id /\
  ~ In (JNum id) (Wire.listed_ids body) /\
  (forall request' body' w'',
     respond (get_questions request') w' = ((body', 200), w'') ->
     ~ In (JNum id) (Wire.listed_ids body') /\
     Wire.field "total_questions" body' = JNum (len (questions w) - 1)) /\
  (healthy w' -> len (questions w) > 1 ->
   exists body', fst (respond (get_questions (mkRequest None None)) w') = (body', 200)).
Proof.
  intros Hrun. apply remove_question_success in Hrun.
  destruct Hrun as (q & Hq & Hw' & ->).
  assert (Hlen : len (questions w') = len (questions w) - 1).
  { rewrite Hw'. now apply (remaining_len id q). }
  assert (Hgone : forall p, ~ In (JNum id)
            (map (Wire.field "id")
               (page_of p (map Question.format (Question.sort_by_id (questions w')))))).
  { intros p Hin. apply listed_on_page in Hin. destruct Hin as (r & Hr & Hid).
    apply (proj1 (sort_by_id_In _ _)) in Hr. rewrite Hw' in Hr.
    apply filter_In in Hr.
    destruct Hr as [_ Hr]. rewrite Hid, Z.eqb_refl in Hr. discriminate. }
  split; [simpl; now rewrite Hlen |].
  split; [reflexivity |].
  split; [apply Hgone |].
  split.
  - intros request' body' w'' Hlist. apply get_questions_success in Hlist.
    subst body'. split; [apply Hgone |]. simpl. now rewrite Hlen.
  - intros Hw Hmany.
    destruct (Question.sort_by_id (questions w')) as [| r l] eqn:Hs.
    + apply (proj1 (sort_by_id_nil_iff _)) in Hs. rewrite Hs in Hlen. unfold len in *.
      simpl in Hlen. lia.
    + eexists. rewrite get_questions_ok; [reflexivity | exact Hw |].
      rewrite Hs. unfold page_of, args_get_page. simpl arg_page. cbv iota.
      intros He.
      assert (Hin : In (Question.format r)
                      (slice (map Question.format (r :: l)) ((1 - 1) * 10) (1 * 10))).
      { apply slice_covers with (i := 0%nat); [reflexivity | lia | lia]. }
      rewrite He in Hin. exact Hin.
Qed.

Lemma delete_then_list_witness :
  Wire.field "total_questions"
    (fst (fst (respond (remove_question (mkRequest None None) 2)
                 (sample_world [3; 1; 2])))) = JNum 2.
Proof.
  destruct (delete_then_list (mkRequest None None) 2 (sample_world [3; 1; 2])
              _ _ eq_refl) as (Htotal & _).
  exact Htotal.
Defined.

(* ===================================================================== *)
(** ** POST /questions, then the listing *)
(* ===================================================================== *)

Lemma get_dict (d : list (string * json)) (key : string) :
  Py.get (JDict d) key = Return (Wire.field key (JDict d)).
Proof.
  unfold Py.get, Wire.field. now destruct (Py.assoc key d).
Qed.

Lemma insert_run (d : Question.draft) (w : World) :
  Db.insert d w =
  let w1 := tick (set_pending (pending w ++ [Add d]) w) in
  if hd false (faults w) then (Raise OperationalError, w1)
  else
    match Question.row (driver w) (questions_id_seq w) d with
    | Raise e => (Raise e, w1)
    | Return q =>
        if existsb (fun r => Question.id r =? Question.id q) (questions w)
        then (Raise IntegrityError, w1)
        else (Return q,
              set_pending []
                (set_questions_id_seq (questions_id_seq w + 1)
                   (set_questions (questions w ++ [q]) w1)))
    end.
Proof.
  destruct w as [drv qs cs sq pd fl rt tp].
  unfold Db.insert, Db.session_add, bind, Db.round_trip, get_world, lift.
  simpl.
  destruct (hd false fl); simpl; [reflexivity |].
  destruct (Question.row drv sq d) as [q | e]; simpl; [| reflexivity].
  destruct (existsb _ qs); reflexivity.
Qed.

Lemma create_question_run (request : Request) (w : World) :
  create_question request w =
  match json_body request with
  | None => (Raise (HTTPException 400), w)
  | Some (JDict d) =>
      let draft := draft_of (JDict d) in
      let w1 := tick (set_pending (pending w ++ [Add draft]) w) in
      if hd false (faults w) then (Raise (HTTPException 422), set_pending [] w1)
      else
        match Question.row (driver w) (questions_id_seq w) draft with
        | Raise _ => (Raise (HTTPException 422), set_pending [] w1)
        | Return q =>
            if existsb (fun r => Question.id r =? Question.id q) (questions w)
            then (Raise (HTTPException 422), set_pending [] w1)
            else
              let w2 :=
                tick (set_pending []
                        (set_questions_id_seq (questions_id_seq w + 1)
                           (set_questions (questions w ++ [q]) w1))) in
              if hd false (tl (faults w))
              then (Raise (HTTPException 422), set_pending [] w2)
              else (Return (created_body
                              (paginate_questions request
                                 (Question.sort_by_id (questions w ++ [q])))
                              (len (questions w ++ [q])) (Question.id q)), w2)
        end
  | Some _ => (Raise (HTTPException 422), set_pending [] w)
  end.
Proof.
  unfold create_question, get_json.
  destruct (json_body request) as [body |]; [| reflexivity].
  unfold bind at 1, ret at 1. cbv beta iota.
  destruct body; try reflexivity.
  unfold try_except, bind at 1 2 3 4. rewrite !get_dict.
  unfold lift at 1 2 3 4. cbv beta iota.
  fold (draft_of (JDict d)).
  unfold bind at 1. rewrite insert_run. cbv zeta.
  destruct (hd false (faults w)) eqn:H1; [reflexivity |].
  destruct (Question.row (driver w) (questions_id_seq w) (draft_of (JDict d))) as [q | e];
    [| reflexivity].
  destruct (existsb _ (questions w)) eqn:Hex; [reflexivity |].
  unfold bind at 1.
  destruct (hd false (tl (faults w))) eqn:H2.
  - rewrite all_fails by exact H2. reflexivity.
  - rewrite all_ok by exact H2. rewrite rows_ordered.
    unfold created_body. now rewrite len_sort.
Qed.

Lemma row_id (drv : Driver.t) (i : Z) (d : Question.draft) (q : Question.t) :
  Question.row drv i d = Return q -> Question.id q = i.
Proof.
  unfold Question.row.
  destruct (Question.bind_text _ _); [| discriminate].
  destruct (Question.bind_text _ _); [| discriminate].
  destruct (Question.bind_integer _ _); [| discriminate].
  destruct (Question.bind_integer _ _); [| discriminate].
  now intros [= <-].
Qed.

Lemma len_app_one {A : Type} (l : list A) (x : A) : len (l ++ [x]) = len l + 1.
Proof.
  unfold len. rewrite length_app. simpl. lia.
Qed.

(** A POST that answers 200 appended one row under the next id of the
    sequence, an id no stored question had. *)
Lemma create_question_success (request : Request) (w w' : World) (body : json) :
  respond (create_question request) w = ((body, 200), w') ->
  exists q,
    Question.id q = questions_id_seq w /\
    (forall r, In r (questions w) -> Question.id r <> Question.id q) /\
    questions w' = questions w ++ [q] /\
    body = created_body
             (page_of (args_get_page request 1)
                (map Question.format (Question.sort_by_id (questions w'))))
             (len (questions w) + 1) (Question.id q).
Proof.
  unfold respond. rewrite create_question_run.
  destruct (json_body request) as [[| | | | | d] |]; try discriminate.
  cbv zeta.
  destruct (hd false (faults w)); [discriminate |].
  destruct (Question.row _ _ _) as [q | e] eqn:Hrow; [| discriminate].
  destruct (existsb _ (questions w)) eqn:Hex; [discriminate |].
  destruct (hd false (tl (faults w))); [discriminate |].
  intros [= <- <-]. exists q. simpl.
  rewrite paginate_page, len_app_one.
  repeat split.
  - now apply row_id in Hrow.
  - intros r Hr Heq.
    assert (Hsome : existsb (fun r0 => Question.id r0 =? Question.id q) (questions w) = true).
    { apply existsb_exists. exists r. split; [exact Hr | now apply Z.eqb_eq]. }
    congruence.
Qed.

(** C8. A POST /questions that answers 200 reports a count one above the
    count before it, and so does every later listing; the id it reports is
    new, and when the store answers there is a page of the listing that
    shows it. *)
Theorem create_then_list (request : Request) (w w' : World) (body : json) :
  respond (create_question request) w = ((body, 200), w') ->
  exists new_id,
    Wire.field "created" body = JNum new_id /\
    Wire.field "total_questions" body = JNum (len (questions w) + 1) /\
    len (questions w') = len (questions w) + 1 /\
    (forall q, In q (questions w) -> Question.id q <> new_id) /\
    (forall request' body' w'',
       respond (get_questions request') w' = ((body', 200), w'') ->
       Wire.field "total_questions" body' = JNum (len (questions w) + 1)) /\
    (healthy w' ->
     exists p body',
       fst (respond (get_questions (mkRequest (Some p) None)) w') = (body', 200) /\
       In (JNum new_id) (Wire.listed_ids body') /\
       Wire.field "total_questions" body' = JNum (len (questions w) + 1)).
Proof.
  intros Hrun. apply create_question_success in Hrun.
  destruct Hrun as (q & Hid & Hfresh & Hw' & ->).
  assert (Hlen : len (questions w') = len (questions w) + 1).
  { rewrite Hw'. apply len_app_one. }
  exists (Question.id q).
  split; [reflexivity |]. split; [reflexivity |]. split; [exact Hlen |].
  split; [exact Hfresh |]. split.
  - intros request' body' w'' Hlist. apply get_questions_success in Hlist.
    subst body'. simpl. now rewrite Hlen.
  - intros Hw.
    assert (Hin : In q (Question.sort_by_id (questions w'))).
    { apply sort_by_id_In. rewrite Hw'. apply in_or_app. right. now left. }
    apply In_nth_error in Hin. destruct Hin as (k & Hk).
    pose proof (page_of_position _ k q Hk) as Hpage.
    exists (Z.of_nat k / 10 + 1). eexists.
    rewrite get_questions_ok; [| exact Hw |].
    + simpl fst. split; [reflexivity |]. split.
      * exact Hpage.
      * simpl. now rewrite Hlen.
    + unfold args_get_page. cbn [arg_page]. intros He.
      rewrite He in Hpage. exact Hpage.
Qed.

Lemma create_then_list_witness :
  exists new_id,
    Wire.field "created"
      (fst (fst (respond (create_question sample_post) (sample_world [3; 1; 2])))) =
    JNum new_id /\
    Wire.field "total_questions"
      (fst (fst (respond (create_question sample_post) (sample_world [3; 1; 2])))) =
    JNum 4.
Proof.
  destruct (create_then_list sample_post (sample_world [3; 1; 2]) _ _ eq_refl)
    as (new_id & Hcreated & Htotal & _).
  exists new_id. split; [exact Hcreated | exact Htotal].
Defined.

(** C5, as the handler has it.  A POST /questions that carries no JSON
    document is answered 400, whatever is stored: [request.get_json()]
    refuses it before the store is reached (the world, with its count of
    round trips, is as before), and the answer is not 422.  Missing fields
    are not turned into 400: for an object without the four fields the
    handler binds null for each and inserts, and while the store answers
    and the next id is free it answers 200 with a question of four NULL
    columns stored; a body that is not an object is answered 422. *)
Theorem create_question_missing_input (request : Request) (w : World) :
  (json_body request = None ->
   respond (create_question request) w = (bad_request, w) /\
   fst (respond (create_question request) w) <> unprocessable) /\
  (forall d,
     json_body request = Some (JDict d) ->
     Py.assoc "question" d = None ->
     Py.assoc "answer" d = None ->
     Py.assoc "category" d = None ->
     Py.assoc "difficulty" d = None ->
     healthy w ->
     (forall r, In r (questions w) -> Question.id r <> questions_id_seq w) ->
     let stored := Question.mk (questions_id_seq w) None None None None in
     fst (respond (create_question request) w) =
     (created_body
        (page_of (args_get_page request 1)
           (map Question.format (Question.sort_by_id (questions w ++ [stored]))))
        (len (questions w) + 1) (questions_id_seq w), 200) /\
     questions (snd (respond (create_question request) w)) =
     questions w ++ [stored]) /\
  (forall body,
     json_body request = Some body ->
     (forall d, body <> JDict d) ->
     fst (respond (create_question request) w) = unprocessable).
Proof.
  split; [| split].
  - intros Hbody.
    assert (Hrun : respond (create_question request) w = (bad_request, w)).
    { unfold respond. now rewrite create_question_run, Hbody. }
    split; [exact Hrun |]. rewrite Hrun. discriminate.
  - intros d Hbody Hq Ha Hc Hk Hw Hfree stored.
    unfold respond. rewrite create_question_run, Hbody. cbv zeta.
    rewrite (healthy_hd w Hw).
    assert (Hrow : Question.row (driver w) (questions_id_seq w) (draft_of (JDict d)) =
                   Return stored).
    { unfold draft_of, Wire.field. now rewrite Hq, Ha, Hc, Hk. }
    rewrite Hrow.
    assert (Hex : existsb (fun r => Question.id r =? Question.id stored)
                    (questions w) = false).
    { destruct (existsb _ (questions w)) eqn:He; [| reflexivity].
      apply existsb_exists in He. destruct He as (r & Hr & Heq).
      apply Z.eqb_eq in Heq. now destruct (Hfree r Hr). }
    rewrite Hex.
    assert (H2 : hd false (tl (faults w)) = false).
    { apply (healthy_hd (tick w)). now apply healthy_tick. }
    rewrite H2. simpl. now rewrite paginate_page, len_app_one.
  - intros body Hbody Hnot. unfold respond.
    rewrite create_question_run, Hbody.
    destruct body; try reflexivity. now destruct (Hnot d).
Qed.

Lemma create_question_missing_input_witness :
  respond (create_question (mkRequest None None)) (sample_world [3; 1; 2]) =
  (bad_request, sample_world [3; 1; 2]).
Proof.
  destruct (create_question_missing_input (mkRequest None None)
              (sample_world [3; 1; 2])) as (Hnone & _).
  exact (proj1 (Hnone eq_refl)).
Defined.

(** The claim of C5 fails at a body that is an object without any of the
    four fields: the fields are missing, and the answer is not 400 but
    200, with a question of four NULL columns stored under the next id. *)
Lemma create_question_counterexample :
  fst (respond (create_question (mkRequest None (Some (JDict []))))
         (sample_world [1])) =
    (created_body
       [Question.format (sample_question 1);
        Question.format (Question.mk 100 None None None None)] 2 100, 200) /\
  questions (snd (respond (create_question (mkRequest None (Some (JDict []))))
                    (sample_world [1]))) =
    [sample_question 1; Question.mk 100 None None None None] /\
  (created_body
     [Question.format (sample_question 1);
      Question.format (Question.mk 100 None None None None)] 2 100, 200) <>
  bad_request.
Proof.
  repeat split; try reflexivity; discriminate.
Qed.

(* ===================================================================== *)
(** ** LIKE patterns of the form %term% *)
(* ===================================================================== *)

Lemma like_percent (p s : list ascii) :
  Sql.like ("%"%char :: p) s =
  Sql.like p s ||
  match s with [] => false | _ :: s' => Sql.like ("%"%char :: p) s' end.
Proof. destruct s; reflexivity. Qed.

Lemma like_plain (c : ascii) (p s : list ascii) :
  Sql.is_wildcard c = false ->
  Sql.like (c :: p) s =
  match s with [] => false | x :: s' => Sql.eq_ci c x && Sql.like p s' end.
Proof.
  unfold Sql.is_wildcard. intros H.
  apply orb_false_iff in H. destruct H as [H H3].
  apply orb_false_iff in H. destruct H as [H1 H2].
  simpl. now rewrite H1, H2, H3.
Qed.

Lemma like_only_percent (s : list ascii) : Sql.like ["%"%char] s = true.
Proof.
  induction s as [| x s IH].
  - reflexivity.
  - rewrite like_percent. now rewrite IH, orb_true_r.
Qed.

Lemma like_prefix (t s : list ascii) :
  forallb (fun c => negb (Sql.is_wildcard c)) t = true ->
  Sql.like (t ++ ["%"%char]) s = Sql.prefix_ci t s.
Proof.
  revert s. induction t as [| c t IH]; intros s Ht.
  - simpl app. rewrite like_only_percent. reflexivity.
  - simpl in Ht. apply andb_true_iff in Ht. destruct Ht as [Hc Ht].
    apply negb_true_iff in Hc. simpl app. rewrite like_plain by exact Hc.
    destruct s as [| x s]; [reflexivity |]. simpl. now rewrite IH.
Qed.

Lemma like_substring (t s : list ascii) :
  forallb (fun c => negb (Sql.is_wildcard c)) t = true ->
  Sql.like ("%"%char :: t ++ ["%"%char]) s = Sql.substring_ci t s.
Proof.
  intros Ht. induction s as [| x s IH].
  - rewrite like_percent, like_prefix by exact Ht. simpl. now destruct t.
  - rewrite like_percent, like_prefix by exact Ht. simpl Sql.substring_ci.
    now rewrite IH.
Qed.

Lemma list_ascii_of_string_app (a b : string) :
  list_ascii_of_string (a ++ b) =
  list_ascii_of_string a ++ list_ascii_of_string b.
Proof.
  induction a as [| c a IH]; simpl; [reflexivity | now rewrite IH].
Qed.

(** For a plain term the pattern %term% selects the texts that contain the
    term, letters compared without case. *)
Lemma ilike_contains (column : option string) (term : string) :
  plain term ->
  Sql.ilike column ("%" ++ term ++ "%") = Sql.contains_ci column term.
Proof.
  intros Ht. destruct column as [text |]; [| reflexivity].
  unfold Sql.ilike, Sql.contains_ci.
  rewrite !list_ascii_of_string_app. simpl.
  now apply like_substring.
Qed.

Lemma matches_containing (py_str : json -> string) (term : string)
    (table : list Question.t) :
  plain term ->
  matches (format_pattern py_str (JStr term)) table = containing term table.
Proof.
  intros Ht. unfold matches, containing, format_pattern, Query.question_ilike.
  f_equal. apply filter_ext. intros q. now apply ilike_contains.
Qed.

(* ===================================================================== *)
(** ** POST /questions/search *)
(* ===================================================================== *)

Lemma search_question_run (py_str : json -> string) (request : Request) (w : World) :
  search_question py_str request w =
  match json_body request with
  | None => (Raise (HTTPException 400), w)
  | Some body =>
      match Py.get body "searchTerm" with
      | Raise e => (Raise e, w)
      | Return term =>
          if truthy term then
            if hd false (faults w) then (Raise OperationalError, tick w)
            else
              match matches (format_pattern py_str term) (questions w) with
              | [] => (Raise (HTTPException 404), tick w)
              | q :: l =>
                  (Return (search_body (paginate_questions request (q :: l))
                             (len (q :: l))), tick w)
              end
          else (Raise (HTTPException 400), w)
      end
  end.
Proof.
  unfold search_question, get_json.
  destruct (json_body request) as [body |]; [| reflexivity].
  unfold bind at 1, ret at 1. cbv beta iota.
  unfold bind at 1, lift at 1.
  destruct (Py.get body "searchTerm") as [term | e]; [| reflexivity].
  destruct (truthy term); [| reflexivity].
  unfold bind at 1.
  destruct (hd false (faults w)) eqn:H1.
  - now rewrite all_fails.
  - rewrite all_ok by exact H1. rewrite rows_filter_ordered.
    fold (matches (format_pattern py_str term) (questions w)).
    destruct (matches _ _) as [| q l]; [reflexivity |].
    unfold bind. rewrite len_cons_eqb. reflexivity.
Qed.

(** A search with matches, while the store answers. *)
Lemma search_question_ok (py_str : json -> string) (request : Request) (w : World)
    (body term : json) :
  healthy w ->
  json_body request = Some body ->
  Py.get body "searchTerm" = Return term ->
  truthy term = true ->
  matches (format_pattern py_str term) (questions w) <> [] ->
  respond (search_question py_str request) w =
  ((search_body
      (page_of (args_get_page request 1)
         (map Question.format (matches (format_pattern py_str term) (questions w))))
      (len (matches (format_pattern py_str term) (questions w))), 200),
   tick w).
Proof.
  intros Hw Hbody Hterm Htruthy Hfound.
  unfold respond. rewrite search_question_run, Hbody, Hterm, Htruthy.
  rewrite (healthy_hd w Hw).
  destruct (matches _ _) as [| q l]; [congruence |].
  now rewrite paginate_page.
Qed.

Lemma search_question_404 (py_str : json -> string) (request : Request) (w : World)
    (body term : json) :
  healthy w ->
  json_body request = Some body ->
  Py.get body "searchTerm" = Return term ->
  truthy term = true ->
  matches (format_pattern py_str term) (questions w) = [] ->
  respond (search_question py_str request) w = (not_found, tick w).
Proof.
  intros Hw Hbody Hterm Htruthy Hfound.
  unfold respond. rewrite search_question_run, Hbody, Hterm, Htruthy.
  rewrite (healthy_hd w Hw). now rewrite Hfound.
Qed.

(** An empty or absent term is refused with 400 before the store is
    reached. *)
Lemma search_question_no_term (py_str : json -> string) (request : Request)
    (w : World) :
  (json_body request = None \/
   exists body term,
     json_body request = Some body /\
     Py.get body "searchTerm" = Return term /\ truthy term = false) ->
  respond (search_question py_str request) w = (bad_request, w).
Proof.
  unfold respond. rewrite search_question_run.
  intros [-> | (body & term & -> & -> & ->)]; reflexivity.
Qed.

(** For a plain, non-empty term the search is the substring search of the
    claim: 404 when no text contains the term, else the page of the
    questions whose text contains it. *)
Lemma search_question_plain (py_str : json -> string) (request : Request)
    (w : World) (body : json) (term : string) :
  healthy w ->
  json_body request = Some body ->
  Py.get body "searchTerm" = Return (JStr term) ->
  term <> EmptyString ->
  plain term ->
  (containing term (questions w) = [] ->
   fst (respond (search_question py_str request) w) = not_found) /\
  (containing term (questions w) <> [] ->
   fst (respond (search_question py_str request) w) =
   (search_body
      (page_of (args_get_page request 1)
         (map Question.format (containing term (questions w))))
      (len (containing term (questions w))), 200)) /\
  (forall q, In q (containing term (questions w)) <->
             In q (questions w) /\
             Sql.contains_ci (Question.question q) term = true).
Proof.
  intros Hw Hbody Hterm Hne Hplain.
  assert (Htruthy : truthy (JStr term) = true).
  { simpl. destruct term; [congruence | reflexivity]. }
  pose proof (matches_containing py_str term (questions w) Hplain) as Hm.
  split; [| split].
  - intros He. rewrite (search_question_404 py_str request w body (JStr term));
      [reflexivity | assumption .. | now rewrite Hm].
  - intros Hfound.
    rewrite (search_question_ok py_str request w body (JStr term));
      [now rewrite Hm | assumption .. | now rewrite Hm].
  - intros q. unfold containing. now rewrite sort_by_id_In, filter_In.
Qed.

(** C2 at a term that is a wildcard.  One question is stored, with the
    text Q; it does not contain the character _, and yet the search for _
    answers 200 and returns it, since _ stands for any character in the
    pattern. *)
Theorem search_question_wildcard (py_str : json -> string) :
  let w := sample_world [1] in
  (forall q, In q (questions w) ->
             Sql.contains_ci (Question.question q) "_" = false) /\
  fst (respond (search_question py_str (sample_search None "_")) w) =
  (search_body [Question.format (sample_question 1)] 1, 200).
Proof.
  split; [| reflexivity].
  intros q [<- | []]. reflexivity.
Qed.

(** C10. When the term is not empty and has matches, the search tests the
    whole match set for emptiness before it cuts the page, so a page beyond
    the matches answers 200 with no question and with the count of all the
    matches, where the listing answers 404 for a page beyond its range. *)
Theorem search_page_beyond_matches (py_str : json -> string) (request : Request)
    (w : World) (body term : json) :
  healthy w ->
  json_body request = Some body ->
  Py.get body "searchTerm" = Return term ->
  truthy term = true ->
  let found := matches (format_pattern py_str term) (questions w) in
  found <> [] ->
  args_get_page request 1 > (len found + 9) / 10 ->
  fst (respond (search_question py_str request) w) =
  (search_body [] (len found), 200) /\
  (args_get_page request 1 > (len (questions w) + 9) / 10 ->
   fst (respond (get_questions request) w) = not_found).
Proof.
  intros Hw Hbody Hterm Htruthy found Hfound Hpage. split.
  - rewrite (search_question_ok py_str request w body term) by assumption.
    fold found. simpl fst. now rewrite page_of_beyond.
  - intros Hall. rewrite get_questions_404; [reflexivity | exact Hw |].
    apply page_of_beyond. now rewrite len_sort.
Qed.

Lemma search_page_beyond_matches_witness :
  fst (respond (search_question (fun _ => EmptyString) (sample_search (Some 2) "q"))
         (sample_world [3; 1; 2])) =
  (search_body [] 3, 200).
Proof.
  assert (Hw : healthy (sample_world [3; 1; 2])) by constructor.
  destruct (search_page_beyond_matches (fun _ => EmptyString)
              (sample_search (Some 2) "q") (sample_world [3; 1; 2])
              _ (JStr "q") Hw eq_refl eq_refl eq_refl) as (Hanswer & _).
  - discriminate.
  - reflexivity.
  - exact Hanswer.
Defined.

(* ===================================================================== *)
(** ** POST /quizzes *)
(* ===================================================================== *)

Lemma respond_try (c : M json) (w : World) :
  respond (try_except c (bind Db.rollback (fun _ => abort 422))) w =
  match c w with
  | (Return b, w') => ((b, 200), w')
  | (Raise _, w') => (unprocessable, set_pending [] w')
  end.
Proof.
  unfold respond, try_except. destruct (c w) as [[b | e] w']; reflexivity.
Qed.

Lemma choice_run {A : Type} (seq : list A) (w : World) :
  Random.choice seq w =
  match seq with
  | [] => (Raise IndexError, w)
  | x :: _ =>
      (Return (nth (hd 0%nat (tape w) mod List.length seq) seq x),
       set_tape (tl (tape w)) w)
  end.
Proof. destruct seq; reflexivity. Qed.

Lemma play_quiz_run (request : Request) (w : World) :
  respond (play_quiz request) w =
  match json_body request with
  | None => (unprocessable, set_pending [] w)
  | Some body =>
      match Py.get body "previous_questions" with
      | Raise _ => (unprocessable, set_pending [] w)
      | Return previous =>
          match Py.get body "quiz_category" with
          | Raise _ => (unprocessable, set_pending [] w)
          | Return quiz_category =>
              match quiz_criterion (driver w) previous quiz_category with
              | Raise _ => (unprocessable, set_pending [] w)
              | Return c =>
                  if hd false (faults w)
                  then (unprocessable, set_pending [] (tick w))
                  else
                    match filter c (questions w) with
                    | [] => (unprocessable, set_pending [] (tick w))
                    | x :: l =>
                        ((quiz_body
                            (nth (hd 0%nat (tape w) mod List.length (x :: l))
                                 (x :: l) x), 200),
                         set_tape (tl (tape w)) (tick w))
                    end
              end
          end
      end
  end.
Proof.
  unfold play_quiz. rewrite respond_try. unfold get_json.
  destruct (json_body request) as [body |]; [| reflexivity].
  unfold bind at 1, ret at 1. cbv beta iota.
  unfold bind at 1, lift at 1.
  destruct (Py.get body "previous_questions") as [previous | e]; [| reflexivity].
  unfold bind at 1, lift at 1.
  destruct (Py.get body "quiz_category") as [quiz_category | e]; [| reflexivity].
  assert (Hsel :
    forall sel : M (list Question.t),
      sel w =
        match quiz_criterion (driver w) previous quiz_category with
        | Raise e => (Raise e, w)
        | Return c => Query.all (Query.filter Query.query c) w
        end ->
      (let (o, w') :=
         bind sel (fun questions =>
           bind (Random.choice questions) (fun question =>
             jsonify (JDict [("success"%string, JBool true);
                             ("question"%string, Question.format question)]))) w in
       match o with
       | Return b => ((b, 200), w')
       | Raise _ => (unprocessable, set_pending [] w')
       end) =
      match quiz_criterion (driver w) previous quiz_category with
      | Raise _ => (unprocessable, set_pending [] w)
      | Return c =>
          if hd false (faults w)
          then (unprocessable, set_pending [] (tick w))
          else
            match filter c (questions w) with
            | [] => (unprocessable, set_pending [] (tick w))
            | x :: l =>
                ((quiz_body
                    (nth (hd 0%nat (tape w) mod List.length (x :: l)) (x :: l) x), 200),
                 set_tape (tl (tape w)) (tick w))
            end
      end).
  { intros sel Hsel. unfold bind at 1. rewrite Hsel.
    destruct (quiz_criterion (driver w) previous quiz_category) as [c | e];
      [| reflexivity].
    destruct (hd false (faults w)) eqn:H1.
    - now rewrite all_fails.
    - rewrite all_ok by exact H1. rewrite rows_filter_one.
      unfold bind. rewrite choice_run.
      destruct (filter c (questions w)) as [| x l]; reflexivity. }
  apply Hsel. unfold quiz_criterion.
  destruct quiz_category; try reflexivity.
  all: unfold bind at 1.
  all: try (unfold Query.id_notin_;
            destruct (Query.id_notin_on (driver w) previous); reflexivity).
  all: unfold lift at 1.
  all: destruct (Py.getitem _ "id") as [v | e]; [| reflexivity].
  all: unfold bind at 1, Query.category_eq.
  all: destruct (Query.category_eq_on (driver w) v) as [c1 | e]; [| reflexivity].
  all: unfold bind at 1, Query.id_notin_.
  all: destruct (Query.id_notin_on (driver w) previous) as [c2 | e]; [| reflexivity].
  all: unfold Query.all, bind; destruct (Db.round_trip w) as [[[] | e] w1];
    try reflexivity.
  all: unfold get_world, ret; now rewrite rows_filter_two, rows_filter_one.
Qed.

Lemma in_list_ids (drv : Driver.t) (ids : list Z) :
  Query.in_list drv (map JNum ids) = Return (map Some ids).
Proof.
  induction ids as [| i ids IH]; simpl; [reflexivity | now rewrite IH].
Qed.

Lemma existsb_is_null_some (ids : list Z) :
  existsb Query.is_null (map Some ids) = false.
Proof.
  induction ids as [| i ids IH]; simpl; [reflexivity | exact IH].
Qed.

Lemma existsb_is_value_some (i : Z) (ids : list Z) :
  existsb (Query.is_value i) (map Some ids) = existsb (Z.eqb i) ids.
Proof.
  induction ids as [| j ids IH]; simpl; [reflexivity |].
  now rewrite IH, (Z.eqb_sym j i).
Qed.

(** An operand that is no sequence is refused, with or without a
    category. *)
Lemma quiz_criterion_not_a_sequence (drv : Driver.t) (previous quiz_category : json) :
  not_a_sequence previous ->
  exists e, quiz_criterion drv previous quiz_category = Raise e.
Proof.
  intros Hprev.
  assert (Hnotin : Query.id_notin_on drv previous = Raise TypeError).
  { destruct previous; simpl in Hprev; try contradiction; reflexivity. }
  unfold quiz_criterion. rewrite Hnotin.
  destruct quiz_category; try (now eexists).
  all: destruct (Py.getitem _ "id") as [v | e]; [| now eexists].
  all: destruct (Query.category_eq_on drv v) as [c1 | e]; now eexists.
Qed.

Lemma filter_all_false {A : Type} (f : A -> bool) (l : list A) :
  (forall x, f x = false) -> filter f l = [].
Proof.
  intros Hf. induction l as [| x l IH]; simpl; [reflexivity |].
  now rewrite Hf.
Qed.

Lemma quiz_criterion_well_formed (drv : Driver.t) (body : json) (ids : list Z)
    (cat : option Z) :
  asks_category body cat ->
  exists c,
    quiz_criterion drv (JList (map JNum ids)) (Wire.field "quiz_category" body) =
    Return c /\
    forall table, filter c table = candidates ids cat table.
Proof.
  intros [[Hq ->] | (c & n & Hq & Hid & ->)]; rewrite Hq.
  - eexists. split.
    + unfold quiz_criterion, Query.id_notin_on. now rewrite in_list_ids.
    + intros table. unfold candidates, Query.not_in. apply filter_ext. intros r.
      now rewrite existsb_is_null_some, existsb_is_value_some.
  - assert (Hitem : Py.getitem (JDict c) "id" = Return (JNum n)).
    { unfold Wire.field in Hid. unfold Py.getitem.
      destruct (Py.assoc "id" c); [now subst | discriminate]. }
    eexists. split.
    + unfold quiz_criterion. rewrite Hitem.
      unfold Query.category_eq_on, Query.id_notin_on. simpl Query.operand.
      now rewrite in_list_ids.
    + intros table. unfold candidates, Query.not_in. apply filter_ext. intros r.
      now rewrite existsb_is_null_some, existsb_is_value_some.
Qed.

Lemma candidates_In (ids : list Z) (cat : option Z) (table : list Question.t)
    (q : Question.t) :
  In q (candidates ids cat table) <->
  In q table /\
  ~ In (Question.id q) ids /\
  match cat with Some c => Question.category q = Some c | None => True end.
Proof.
  unfold candidates. rewrite filter_In, andb_true_iff, negb_true_iff.
  assert (Hprev : existsb (Z.eqb (Question.id q)) ids = false <->
                  ~ In (Question.id q) ids).
  { split.
    - intros He Hin.
      assert (Ht : existsb (Z.eqb (Question.id q)) ids = true).
      { apply existsb_exists. exists (Question.id q).
        split; [exact Hin | apply Z.eqb_refl]. }
      congruence.
    - intros Hn. destruct (existsb _ ids) eqn:He; [| reflexivity].
      apply existsb_exists in He. destruct He as (i & Hi & Heq).
      apply Z.eqb_eq in Heq. subst i. now destruct Hn. }
  rewrite Hprev. destruct cat as [c |].
  - rewrite category_is_spec. tauto.
  - tauto.
Qed.

(** C3, as the handler has it.  The quiz answers either 422 or 200 with a
    stored question.  It answers 422 when there is no body, when
    previous_questions is missing or null or is a number or a boolean
    (no sequence of ids), when the store refuses the ids or the category,
    when no candidate is left (as when the ids cover the category), and
    when the store fails.  For a body with a list of integer ids and no
    category, or the object of a category, the candidates are the stored
    questions whose id is not in the list, of that category when one is
    given; the answer is the candidate at the index the generator draws
    below their count, and a draw k picks the k-th candidate, so that draws
    uniform on the range pick uniformly.  A value of previous_questions
    that is no list of integers and that the store takes is not
    refused. *)
Theorem play_quiz_outcomes (request : Request) (w : World) :
  let answer := fst (respond (play_quiz request) w) in
  (answer = unprocessable \/
   exists q, In q (questions w) /\ answer = (quiz_body q, 200)) /\
  (json_body request = None -> answer = unprocessable) /\
  (hd false (faults w) = true -> answer = unprocessable) /\
  (forall body,
     json_body request = Some body ->
     (forall previous,
        Py.get body "previous_questions" = Return previous ->
        not_a_sequence previous) ->
     answer = unprocessable) /\
  (forall body previous quiz_category e,
     json_body request = Some body ->
     Py.get body "previous_questions" = Return previous ->
     Py.get body "quiz_category" = Return quiz_category ->
     quiz_criterion (driver w) previous quiz_category = Raise e ->
     answer = unprocessable) /\
  (forall d ids cat,
     json_body request = Some (JDict d) ->
     Wire.field "previous_questions" (JDict d) = JList (map JNum ids) ->
     asks_category (JDict d) cat ->
     let cs := candidates ids cat (questions w) in
     (forall q, In q cs <->
                In q (questions w) /\ ~ In (Question.id q) ids /\
                match cat with
                | Some c => Question.category q = Some c
                | None => True
                end) /\
     (hd false (faults w) = true -> answer = unprocessable) /\
     (cs = [] -> answer = unprocessable) /\
     ((forall q, In q (questions w) ->
                 match cat with
                 | Some c => Question.category q = Some c
                 | None => True
                 end ->
                 In (Question.id q) ids) ->
      answer = unprocessable) /\
     (hd false (faults w) = false -> cs <> [] ->
      exists q,
        nth_error cs (hd 0%nat (tape w) mod List.length cs) = Some q /\
        In q cs /\ answer = (quiz_body q, 200)) /\
     (forall k q,
        hd false (faults w) = false ->
        nth_error cs k = Some q ->
        hd 0%nat (tape w) = k ->
        answer = (quiz_body q, 200))).
Proof.
  intros answer. unfold answer. rewrite play_quiz_run.
  split; [| split; [| split; [| split; [| split]]]].
  - destruct (json_body request) as [body |]; [| now left].
    destruct (Py.get body "previous_questions") as [previous | e]; [| now left].
    destruct (Py.get body "quiz_category") as [quiz_category | e]; [| now left].
    destruct (quiz_criterion (driver w) previous quiz_category) as [c | e];
      [| now left].
    destruct (hd false (faults w)); [now left |].
    destruct (filter c (questions w)) as [| x l] eqn:Hf; [now left |].
    right. eexists. split; [| reflexivity].
    assert (Hin : In (nth (hd 0%nat (tape w) mod List.length (x :: l)) (x :: l) x)
                     (filter c (questions w))).
    { rewrite Hf. apply nth_In. apply Nat.mod_upper_bound. discriminate. }
    apply filter_In in Hin. tauto.
  - now intros ->.
  - intros Hfault.
    destruct (json_body request) as [body |]; [| reflexivity].
    destruct (Py.get body "previous_questions") as [previous | e]; [| reflexivity].
    destruct (Py.get body "quiz_category") as [quiz_category | e]; [| reflexivity].
    destruct (quiz_criterion (driver w) previous quiz_category) as [c | e];
      [| reflexivity].
    now rewrite Hfault.
  - intros body -> Hbad.
    destruct (Py.get body "previous_questions") as [previous | e]; [| reflexivity].
    destruct (Py.get body "quiz_category") as [quiz_category | e]; [| reflexivity].
    destruct (quiz_criterion_not_a_sequence (driver w) previous quiz_category
                (Hbad previous eq_refl)) as (e & ->).
    reflexivity.
  - intros body previous quiz_category e -> -> -> ->. reflexivity.
  - intros d ids cat -> Hprev Hcat. rewrite !get_dict, Hprev.
    destruct (quiz_criterion_well_formed (driver w) (JDict d) ids cat Hcat)
      as (c & -> & Hfilter).
    rewrite Hfilter. set (cs := candidates ids cat (questions w)).
    split; [intros q; apply candidates_In |].
    split; [now intros -> |].
    assert (Hempty : cs = [] ->
              fst (if hd false (faults w)
                   then (unprocessable, set_pending [] (tick w))
                   else
                     match cs with
                     | [] => (unprocessable, set_pending [] (tick w))
                     | x :: l =>
                         ((quiz_body
                             (nth (hd 0%nat (tape w) mod List.length (x :: l))
                                  (x :: l) x), 200),
                          set_tape (tl (tape w)) (tick w))
                     end) = unprocessable).
    { intros ->. now destruct (hd false (faults w)). }
    split; [exact Hempty |].
    split.
    { intros Hcover. apply Hempty.
      destruct cs as [| x l] eqn:Hcs; [reflexivity |]. exfalso.
      assert (Hx : In x cs) by (rewrite Hcs; now left).
      apply candidates_In in Hx. destruct Hx as (Hin & Hnot & Hcat').
      exact (Hnot (Hcover x Hin Hcat')). }
    split.
    + intros -> Hne. destruct cs as [| x l] eqn:Hcs; [congruence |].
      assert (Hlt : (hd 0%nat (tape w) mod List.length (x :: l) < List.length (x :: l))%nat).
      { apply Nat.mod_upper_bound. discriminate. }
      exists (nth (hd 0%nat (tape w) mod List.length (x :: l)) (x :: l) x).
      split; [now apply nth_error_nth' |].
      split; [now apply nth_In | reflexivity].
    + intros k q -> Hk <-. destruct cs as [| x l] eqn:Hcs.
      * now destruct (hd 0%nat (tape w)).
      * assert (Hlt : (hd 0%nat (tape w) < List.length (x :: l))%nat).
        { apply nth_error_Some. congruence. }
        rewrite Nat.mod_small by exact Hlt.
        now rewrite (nth_error_nth _ _ x Hk).
Qed.

Lemma play_quiz_outcomes_witness :
  fst (respond (play_quiz (sample_quiz 1 [1])) (sample_world [3; 1; 2])) =
  (quiz_body (sample_question 3), 200).
Proof.
  destruct (play_quiz_outcomes (sample_quiz 1 [1]) (sample_world [3; 1; 2]))
    as (_ & _ & _ & _ & _ & Hwf).
  destruct (Hwf _ [1] (Some 1) eq_refl eq_refl) as (_ & _ & _ & _ & _ & Hdraw).
  - right. eexists. exists 1. repeat split; reflexivity.
  - exact (Hdraw 0%nat (sample_question 3) eq_refl eq_refl eq_refl).
Defined.

(** The claim of C3 fails where previous_questions is malformed and the
    store takes it.  An empty object in its place is read as no id at all,
    and the quiz answers 200 with the stored question; a list of the
    strings "1" and "3" is read as the ids 1 and 3, and the quiz over the
    questions 1, 2 and 3 answers 200 with question 2. *)
Lemma play_quiz_counterexample :
  fst (respond
         (play_quiz
            (mkRequest None
               (Some (JDict [("previous_questions"%string, JDict [])]))))
         (sample_world [1])) =
    (quiz_body (sample_question 1), 200) /\
  fst (respond
         (play_quiz
            (mkRequest None
               (Some (JDict [("previous_questions"%string,
                              JList [JStr "1"; JStr "3"])]))))
         (sample_world [1; 2; 3])) =
    (quiz_body (sample_question 2), 200) /\
  (quiz_body (sample_question 1), 200) <> unprocessable /\
  (quiz_body (sample_question 2), 200) <> unprocessable.
Proof.
  repeat split; try reflexivity; discriminate.
Qed.

(* ===================================================================== *)
(** ** GET /categories *)
(* ===================================================================== *)

Lemma category_insert_perm (c : Category.t) (l : list Category.t) :
  Permutation (c :: l) (Category.insert_by_id c l).
Proof.
  induction l as [| r l IH]; simpl.
  - apply Permutation_refl.
  - destruct (Category.id c <=? Category.id r).
    + apply Permutation_refl.
    + eapply perm_trans; [apply perm_swap |]. now apply perm_skip.
Qed.

Lemma category_sort_perm (l : list Category.t) :
  Permutation l (Category.sort_by_id l).
Proof.
  induction l as [| c l IH]; simpl.
  - apply perm_nil.
  - eapply perm_trans; [apply perm_skip, IH |]. apply category_insert_perm.
Qed.

Lemma category_insert_sorted (c : Category.t) (l : list Category.t) :
  Sorted (fun a b => Category.id a <= Category.id b) l ->
  Sorted (fun a b => Category.id a <= Category.id b) (Category.insert_by_id c l).
Proof.
  induction l as [| r l IH]; simpl; intros Hl.
  - repeat constructor.
  - destruct (Z.leb_spec (Category.id c) (Category.id r)) as [Hle | Hgt].
    + constructor; [exact Hl | now constructor].
    + inversion Hl as [| ? ? Hs Hh]; subst.
      constructor; [now apply IH |].
      destruct l as [| r' l]; simpl.
      * constructor. lia.
      * destruct (Category.id c <=? Category.id r'); constructor; try lia.
        now inversion Hh.
Qed.

Lemma category_sort_sorted (l : list Category.t) :
  Sorted (fun a b => Category.id a <= Category.id b) (Category.sort_by_id l).
Proof.
  induction l as [| c l IH]; simpl.
  - constructor.
  - now apply category_insert_sorted.
Qed.

Lemma get_categories_cases (request : Request) (w : World) :
  get_categories request w =
  if hd false (faults w) then (Raise OperationalError, tick w) else
  match Category.sort_by_id (categories w) with
  | [] => (Raise (HTTPException 404), tick w)
  | c :: l =>
      (Return (JDict [("success"%string, JBool true);
                      ("categories"%string, JList (map Category.format (c :: l)))]),
       tick w)
  end.
Proof.
  unfold get_categories, bind at 1.
  destruct (hd false (faults w)) eqn:H1.
  - unfold Query.all_categories, bind. now rewrite round_trip_fails.
  - rewrite all_categories_ok by exact H1.
    destruct (Category.sort_by_id (categories w)) as [| c l]; [reflexivity |].
    unfold bind. now rewrite len_cons_eqb.
Qed.

(** X1. While the store answers, GET /categories answers 404 exactly when
    no category is stored; otherwise it answers 200 with the formatted
    categories, each stored category once, in ascending order of id. *)
Theorem get_categories_outcomes (request : Request) (w : World) :
  hd false (faults w) = false ->
  (categories w = [] <-> fst (respond (get_categories request) w) = not_found) /\
  (categories w <> [] ->
   let sorted := Category.sort_by_id (categories w) in
   Permutation (categories w) sorted /\
   Sorted (fun a b => Category.id a <= Category.id b) sorted /\
   fst (respond (get_categories request) w) =
   (JDict [("success"%string, JBool true);
           ("categories"%string, JList (map Category.format sorted))], 200)).
Proof.
  intros Hw. unfold respond. rewrite get_categories_cases, Hw.
  pose proof (category_sort_perm (categories w)) as Hperm.
  pose proof (category_sort_sorted (categories w)) as Hsorted.
  destruct (Category.sort_by_id (categories w)) as [| c l] eqn:Hs.
  - apply Permutation_sym, Permutation_nil in Hperm. split.
    + now split.
    + congruence.
  - split.
    + split; [| discriminate].
      intros He. rewrite He in Hperm. now apply Permutation_nil in Hperm.
    + intros _. now repeat split.
Qed.

Lemma get_categories_outcomes_witness :
  fst (respond (get_categories (mkRequest None None)) (sample_world [1])) =
  (JDict [("success"%string, JBool true);
          ("categories"%string,
           JList [Category.format (Category.mk 1 "Science")])], 200).
Proof.
  destruct (get_categories_outcomes (mkRequest None None) (sample_world [1]) eq_refl)
    as (_ & Hok).
  destruct Hok as (_ & _ & Hanswer); [discriminate |].
  exact Hanswer.
Defined.

(* ===================================================================== *)
(** ** Pages *)
(* ===================================================================== *)

Lemma slice_contiguous {A : Type} (l : list A) (a b : Z) :
  exists before after, l = before ++ slice l a b ++ after.
Proof.
  unfold slice.
  set (lo := Z.to_nat (adjust_index (Z.of_nat (List.length l)) a)).
  set (k := Z.to_nat (adjust_index (Z.of_nat (List.length l)) b -
                      adjust_index (Z.of_nat (List.length l)) a)).
  exists (firstn lo l), (skipn k (skipn lo l)).
  now rewrite (firstn_skipn k), (firstn_skipn lo).
Qed.

Lemma page_length_le {A : Type} (l : list A) (a : Z) :
  (List.length (slice l a (a + 10)) <= 10)%nat.
Proof.
  unfold slice. rewrite length_firstn. unfold adjust_index.
  destruct (Z.ltb_spec a 0); destruct (Z.ltb_spec (a + 10) 0); lia.
Qed.

(** X2. Whatever the page argument, paginate_questions returns at most
    10 items, and they are a contiguous run of the formatted selection:
    items of the selection, in its order, none skipped in between. *)
Theorem paginate_questions_window (request : Request) (selection : list Question.t) :
  (List.length (paginate_questions request selection) <= 10)%nat /\
  (exists before after,
     map Question.format selection =
     before ++ paginate_questions request selection ++ after) /\
  (forall v, In v (paginate_questions request selection) ->
             exists q, In q selection /\ v = Question.format q).
Proof.
  unfold paginate_questions, QUESTIONS_PER_PAGE. cbv zeta.
  split; [apply page_length_le |].
  split; [apply slice_contiguous |].
  intros v Hv. apply slice_In in Hv. apply in_map_iff in Hv.
  destruct Hv as (q & <- & Hq). now exists q.
Qed.

Lemma firstn_firstn_skipn {A : Type} (l : list A) (a b : nat) :
  firstn a l ++ firstn b (skipn a l) = firstn (a + b) l.
Proof.
  revert l. induction a as [| a IH]; intros l; simpl.
  - reflexivity.
  - destruct l as [| x l]; simpl.
    + now rewrite firstn_nil.
    + now rewrite IH.
Qed.

Lemma page_of_forward (l : list json) (k : nat) :
  page_of (Z.of_nat (S k)) l = firstn 10 (skipn (10 * k) l).
Proof.
  unfold page_of. rewrite slice_forward by lia. unfold len.
  destruct (Nat.le_gt_cases (List.length l) (10 * k)) as [Hle | Hgt].
  - rewrite (skipn_all2 (n := 10 * k)) by exact Hle.
    rewrite skipn_all2 by lia. now rewrite !firstn_nil.
  - replace (Z.to_nat (Z.min ((Z.of_nat (S k) - 1) * 10) (Z.of_nat (List.length l))))
      with (10 * k)%nat by lia.
    destruct (Nat.le_gt_cases (10 * k + 10) (List.length l)) as [Hfull | Hpart].
    + f_equal. lia.
    + rewrite (firstn_all2 (n := 10)) by (rewrite length_skipn; lia).
      apply firstn_all2. rewrite length_skipn. lia.
Qed.

(** X3. The pages 1, 2, ..., k of a selection, one after the other, are
    its first 10*k formatted items; with k pages that reach the end they
    are the whole formatted selection, each item on exactly one page. *)
Theorem pages_in_sequence (selection : list Question.t) (k : nat) :
  List.concat (map (fun p => paginate_questions (page_request p) selection) (seq 1 k)) =
  firstn (10 * k) (map Question.format selection) /\
  ((List.length selection <= 10 * k)%nat ->
   List.concat (map (fun p => paginate_questions (page_request p) selection) (seq 1 k)) =
   map Question.format selection).
Proof.
  assert (Hcat : List.concat (map (fun p => paginate_questions (page_request p) selection)
                           (seq 1 k)) =
                 firstn (10 * k) (map Question.format selection)).
  { induction k as [| k IH].
    - reflexivity.
    - rewrite seq_S, map_app, concat_app, IH. cbn [map List.concat Nat.add].
      rewrite app_nil_r, paginate_page.
      unfold page_request, args_get_page. cbn [arg_page].
      rewrite page_of_forward, firstn_firstn_skipn. f_equal. lia. }
  split; [exact Hcat |].
  intros Hk. rewrite Hcat. apply firstn_all2. now rewrite length_map.
Qed.

Lemma pages_in_sequence_witness :
  List.concat (map (fun p => paginate_questions (page_request p)
                          (map sample_question [1; 2; 3]))
              (seq 1 1)) =
  map Question.format (map sample_question [1; 2; 3]).
Proof.
  apply (proj2 (pages_in_sequence (map sample_question [1; 2; 3]) 1)).
  simpl. lia.
Defined.

(* ===================================================================== *)
(** ** The routes together *)
(* ===================================================================== *)





Lemma get_questions_of_category_cases (request : Request) (cat_id : Z) (w : World) :
  get_questions_of_category request cat_id w =
  if hd false (faults w) then (Raise OperationalError, tick w)
  else
    let matching :=
      Question.sort_by_id (filter (Query.category_is cat_id) (questions w)) in
    (Return (category_body cat_id (map Question.format matching) (len matching)),
     tick w).
Proof.
  destruct (hd false (faults w)) eqn:H1.
  - unfold get_questions_of_category, bind. now rewrite all_fails.
  - now apply get_questions_of_category_run.
Qed.

Lemma serve_reads (py_str : json -> string) (r : route) (request : Request)
    (w : World) :
  reads_only r = true ->
  questions (snd (serve py_str r request w)) = questions w /\
  categories (snd (serve py_str r request w)) = categories w /\
  questions_id_seq (snd (serve py_str r request w)) = questions_id_seq w.
Proof.
  intros Hr. destruct r; try discriminate; unfold serve, view.
  - unfold respond. rewrite get_categories_cases.
    destruct (hd false (faults w)); [now repeat split |].
    destruct (Category.sort_by_id (categories w)); now repeat split.
  - unfold respond. rewrite get_questions_cases.
    destruct (hd false (faults w)); [now repeat split |].
    destruct (page_of _ _); [now repeat split |].
    destruct (hd false (tl (faults w))); now repeat split.
  - unfold respond. rewrite search_question_run.
    destruct (json_body request) as [body |]; [| now repeat split].
    destruct (Py.get body "searchTerm") as [term | e]; [| now repeat split].
    destruct (truthy term); [| now repeat split].
    destruct (hd false (faults w)); [now repeat split |].
    destruct (matches _ _); now repeat split.
  - unfold respond. rewrite get_questions_of_category_cases.
    destruct (hd false (faults w)); now repeat split.
  - rewrite play_quiz_run.
    destruct (json_body request) as [body |]; [| now repeat split].
    destruct (Py.get body "previous_questions") as [previous | e]; [| now repeat split].
    destruct (Py.get body "quiz_category") as [quiz_category | e]; [| now repeat split].
    destruct (quiz_criterion (driver w) previous quiz_category) as [c | e]; [| now repeat split].
    destruct (hd false (faults w)); [now repeat split |].
    destruct (filter c (questions w)); now repeat split.
Qed.

Lemma serve_table_effect (py_str : json -> string) (r : route) (request : Request)
    (w : World) :
  table_effect w (snd (serve py_str r request w)).
Proof.
  destruct (reads_only r) eqn:Hr.
  - destruct (serve_reads py_str r request w Hr) as (Hq & Hc & Hs).
    split; [exact Hc |]. left. now split.
  - destruct r; try discriminate; unfold serve, view, respond.
    + rewrite remove_question_run.
      destruct (hd false (faults w)); [split; [reflexivity | now left] |].
      destruct (filter (Query.id_eq id) (questions w)) as [| q [| q' l]];
        try (split; [reflexivity | now left]).
      cbv zeta.
      destruct (hd false (tl (faults w))); [split; [reflexivity | now left] |].
      destruct (hd false (tl (tl (faults w))));
        (split; [reflexivity | right; left; exists (Question.id q); now split]).
    + rewrite create_question_run.
      destruct (json_body request) as [[| | | | | d] |];
        try (split; [reflexivity | now left]).
      cbv zeta.
      destruct (hd false (faults w)); [split; [reflexivity | now left] |].
      destruct (Question.row _ _ _) as [q | e] eqn:Hrow;
        [| split; [reflexivity | now left]].
      destruct (existsb _ (questions w)) eqn:Hex;
        [split; [reflexivity | now left] |].
      assert (Hfresh : forall r, In r (questions w) -> Question.id r <> Question.id q).
      { intros r Hin Heq.
        assert (Hsome : existsb (fun r0 => Question.id r0 =? Question.id q)
                          (questions w) = true).
        { apply existsb_exists. exists r. split; [exact Hin | now apply Z.eqb_eq]. }
        congruence. }
      apply row_id in Hrow.
      destruct (hd false (tl (faults w)));
        (split; [reflexivity | right; right; exists q; now repeat split]).
Qed.

(** X5. The routes that read (the three GET routes, the search and the
    quiz) change neither the questions nor the categories nor the sequence
    of ids, whatever the requests and whether they succeed or fail. *)
Theorem reads_leave_tables (py_str : json -> string)
    (calls : list (route * Request)) (w : World) :
  forallb (fun call => reads_only (fst call)) calls = true ->
  questions (serve_all py_str calls w) = questions w /\
  categories (serve_all py_str calls w) = categories w /\
  questions_id_seq (serve_all py_str calls w) = questions_id_seq w.
Proof.
  revert w. induction calls as [| [r request] calls IH]; intros w Hcalls.
  - now repeat split.
  - simpl in Hcalls. apply andb_true_iff in Hcalls. destruct Hcalls as [Hr Hcalls].
    simpl. destruct (IH (snd (serve py_str r request w)) Hcalls) as (Hq & Hc & Hs).
    destruct (serve_reads py_str r request w Hr) as (Hq' & Hc' & Hs').
    rewrite Hq, Hc, Hs. now repeat split.
Qed.

Lemma reads_leave_tables_witness :
  questions (serve_all (fun _ => EmptyString)
               [(GetQuestions, mkRequest None None);
                (SearchQuestion, sample_search None "q");
                (PlayQuiz, sample_quiz 1 [])]
               (sample_world [3; 1; 2])) =
  questions (sample_world [3; 1; 2]).
Proof.
  exact (proj1 (reads_leave_tables (fun _ => EmptyString)
                  [(GetQuestions, mkRequest None None);
                   (SearchQuestion, sample_search None "q");
                   (PlayQuiz, sample_quiz 1 [])]
                  (sample_world [3; 1; 2]) eq_refl)).
Defined.





Ltac shape_ok := unfold well_shaped; simpl; split; [tauto | now left].
Ltac shape_err := unfold well_shaped; simpl; split; [tauto | right; tauto].

(** X4. Whatever the request and the state of the store, a route answers
    with one of its own status codes, and the response is in one of two
    shapes: status 200 with success true, or the body of the handler
    registered for 400, 404, 422 or 500 with that code as status.  POST
    /questions and POST /quizzes never answer 500 or 404; the listing of a
    category answers 200 or 500 only. *)
Theorem serve_response_shape (py_str : json -> string) (r : route)
    (request : Request) (w : World) :
  In (snd (fst (serve py_str r request w))) (statuses r) /\
  well_shaped (fst (serve py_str r request w)).
Proof.
  destruct r; unfold serve, view.
  - unfold respond. rewrite get_categories_cases.
    destruct (hd false (faults w)); [shape_err |].
    destruct (Category.sort_by_id (categories w)); [shape_err | shape_ok].
  - unfold respond. rewrite get_questions_cases.
    destruct (hd false (faults w)); [shape_err |].
    destruct (page_of _ _); [shape_err |].
    destruct (hd false (tl (faults w))); [shape_err | shape_ok].
  - unfold respond. rewrite remove_question_run.
    destruct (hd false (faults w)); [shape_err |].
    destruct (filter (Query.id_eq id) (questions w)) as [| q [| q' l]];
      [shape_err | | shape_err].
    cbv zeta.
    destruct (hd false (tl (faults w))); [shape_err |].
    destruct (hd false (tl (tl (faults w)))); [shape_err | shape_ok].
  - unfold respond. rewrite create_question_run.
    destruct (json_body request) as [[| | | | | d] |]; try shape_err.
    cbv zeta.
    destruct (hd false (faults w)); [shape_err |].
    destruct (Question.row _ _ _) as [q | e]; [| shape_err].
    destruct (existsb _ (questions w)); [shape_err |].
    destruct (hd false (tl (faults w))); [shape_err | shape_ok].
  - unfold respond. rewrite search_question_run.
    destruct (json_body request) as [body |]; [| shape_err].
    destruct (Py.get body "searchTerm") as [term | e] eqn:Hget.
    + destruct (truthy term); [| shape_err].
      destruct (hd false (faults w)); [shape_err |].
      destruct (matches _ _); [shape_err | shape_ok].
    + assert (He : e = AttributeError).
      { unfold Py.get in Hget. destruct body; try congruence.
        destruct (Py.assoc _ _); discriminate. }
      subst e. shape_err.
  - unfold respond. rewrite get_questions_of_category_cases.
    destruct (hd false (faults w)); [shape_err | shape_ok].
  - rewrite play_quiz_run.
    destruct (json_body request) as [body |]; [| shape_err].
    destruct (Py.get body "previous_questions") as [previous | e]; [| shape_err].
    destruct (Py.get body "quiz_category") as [quiz_category | e]; [| shape_err].
    destruct (quiz_criterion (driver w) previous quiz_category) as [c | e]; [| shape_err].
    destruct (hd false (faults w)); [shape_err |].
    destruct (filter c (questions w)); [shape_err | shape_ok].
Qed.

(** X6. A session without pending changes has none after any sequence of
    requests: every change a handler adds is committed or rolled back
    before the handler returns. *)
Theorem serve_session_clean (py_str : json -> string)
    (calls : list (route * Request)) (w : World) :
  pending w = [] -> pending (serve_all py_str calls w) = [].
Proof.
  revert w. induction calls as [| [r request] calls IH]; intros w Hw.
  - exact Hw.
  - simpl. apply IH. clear IH.
    destruct r; unfold serve, view; simpl fst; simpl snd.
    + unfold respond. rewrite get_categories_cases.
      destruct (hd false (faults w)); [exact Hw |].
      destruct (Category.sort_by_id (categories w)); exact Hw.
    + unfold respond. rewrite get_questions_cases.
      destruct (hd false (faults w)); [exact Hw |].
      destruct (page_of _ _); [exact Hw |].
      destruct (hd false (tl (faults w))); exact Hw.
    + unfold respond. rewrite remove_question_run.
      destruct (hd false (faults w)); [exact Hw |].
      destruct (filter (Query.id_eq id) (questions w)) as [| q [| q' l]];
        try exact Hw.
      cbv zeta.
      destruct (hd false (tl (faults w))); [reflexivity |].
      destruct (hd false (tl (tl (faults w)))); reflexivity.
    + unfold respond. rewrite create_question_run.
      destruct (json_body request) as [[| | | | | d] |];
        try reflexivity; try exact Hw.
      cbv zeta.
      destruct (hd false (faults w)); [reflexivity |].
      destruct (Question.row _ _ _) as [q | e]; [| reflexivity].
      destruct (existsb _ (questions w)); [reflexivity |].
      destruct (hd false (tl (faults w))); reflexivity.
    + unfold respond. rewrite search_question_run.
      destruct (json_body request) as [body |]; [| exact Hw].
      destruct (Py.get body "searchTerm") as [term | e]; [| exact Hw].
      destruct (truthy term); [| exact Hw].
      destruct (hd false (faults w)); [exact Hw |].
      destruct (matches _ _); exact Hw.
    + unfold respond. rewrite get_questions_of_category_cases.
      destruct (hd false (faults w)); exact Hw.
    + rewrite play_quiz_run.
      destruct (json_body request) as [body |]; [| reflexivity].
      destruct (Py.get body "previous_questions") as [previous | e]; [| reflexivity].
      destruct (Py.get body "quiz_category") as [quiz_category | e]; [| reflexivity].
      destruct (quiz_criterion (driver w) previous quiz_category) as [c | e]; [| reflexivity].
      destruct (hd false (faults w)); [reflexivity |].
      destruct (filter c (questions w)); [reflexivity | exact Hw].
Qed.

Lemma serve_session_clean_witness :
  pending (serve_all (fun _ => EmptyString)
             [(CreateQuestion, sample_post);
              (RemoveQuestion 1, mkRequest None None)]
             (sample_world [1])) = [].
Proof.
  exact (serve_session_clean (fun _ => EmptyString)
           [(CreateQuestion, sample_post);
            (RemoveQuestion 1, mkRequest None None)]
           (sample_world [1]) eq_refl).
Defined.

Lemma NoDup_map_filter {A B : Type} (g : A -> B) (f : A -> bool) (l : list A) :
  NoDup (map g l) -> NoDup (map g (filter f l)).
Proof.
  induction l as [| x l IH]; simpl; intros H; [constructor |].
  inversion H as [| ? ? Hx Hl]; subst.
  destruct (f x); simpl; [| now apply IH].
  constructor; [| now apply IH].
  intros Hin. apply Hx. apply in_map_iff in Hin.
  destruct Hin as (y & Hy & Hiny). apply filter_In in Hiny.
  apply in_map_iff. exists y. tauto.
Qed.

Lemma table_effect_key (w w' : World) :
  table_effect w w' -> key_in_order w -> key_in_order w'.
Proof.
  intros [_ Heff] [Hnodup Hbelow]. unfold key_in_order.
  destruct Heff as [[Hq Hs] | [(i & Hq & Hs) | (q & Hid & Hfresh & Hq & Hs)]];
    rewrite Hq, Hs.
  - now split.
  - split; [now apply NoDup_map_filter |].
    apply Forall_forall. intros r Hr. apply filter_In in Hr.
    rewrite Forall_forall in Hbelow. now apply Hbelow.
  - split.
    + rewrite map_app. simpl.
      apply (Permutation_NoDup (l := Question.id q :: map Question.id (questions w))).
      * apply Permutation_cons_append.
      * constructor; [| exact Hnodup].
        intros Hin. apply in_map_iff in Hin. destruct Hin as (r & Hr & Hin).
        exact (Hfresh r Hin Hr).
    + apply Forall_app. split.
      * eapply Forall_impl; [| exact Hbelow]. simpl. intros r Hr. lia.
      * constructor; [lia | constructor].
Qed.

(** X7. Any sequence of requests keeps the key of the questions in order:
    no id is stored twice and every stored id is below the next value of
    the sequence. *)
Theorem serve_keeps_key (py_str : json -> string)
    (calls : list (route * Request)) (w : World) :
  key_in_order w -> key_in_order (serve_all py_str calls w).
Proof.
  revert w. induction calls as [| [r request] calls IH]; intros w Hw.
  - exact Hw.
  - simpl. apply IH. eapply table_effect_key; [| exact Hw].
    apply serve_table_effect.
Qed.

Lemma sample_key_in_order : key_in_order (sample_world [1; 2]).
Proof.
  split.
  - simpl. repeat constructor; simpl; intuition discriminate.
  - simpl. repeat constructor.
Qed.

Lemma serve_keeps_key_witness :
  key_in_order (serve_all (fun _ => EmptyString)
                  [(CreateQuestion, sample_post);
                   (RemoveQuestion 1, mkRequest None None)]
                  (sample_world [1; 2])).
Proof.
  exact (serve_keeps_key (fun _ => EmptyString)
           [(CreateQuestion, sample_post);
            (RemoveQuestion 1, mkRequest None None)]
           (sample_world [1; 2]) sample_key_in_order).
Defined.

Lemma remove_question_keeps_seq (request : Request) (id : Z) (w : World) :
  questions_id_seq (snd (respond (remove_question request id) w)) =
  questions_id_seq w.
Proof.
  unfold respond. rewrite remove_question_run.
  destruct (hd false (faults w)); [reflexivity |].
  destruct (filter (Query.id_eq id) (questions w)) as [| q [| q' l]];
    try reflexivity.
  cbv zeta.
  destruct (hd false (tl (faults w))); [reflexivity |].
  destruct (hd false (tl (tl (faults w)))); reflexivity.
Qed.


Lemma table_effect_gone (id : Z) (w w' : World) :
  table_effect w w' -> gone id w -> gone id w'.
Proof.
  intros [_ Heff] [Hseq Hgone]. unfold gone.
  destruct Heff as [[Hq Hs] | [(i & Hq & Hs) | (q & Hid & Hfresh & Hq & Hs)]];
    rewrite Hq, Hs.
  - now split.
  - split; [exact Hseq |]. intros r Hr. apply filter_In in Hr. now apply Hgone.
  - split; [lia |]. intros r Hr. apply in_app_or in Hr.
    destruct Hr as [Hr | [<- | []]]; [now apply Hgone | lia].
Qed.

(** X9. In a store whose key is in order, an id that a DELETE removed with
    status 200 is the id of no stored question after any further sequence
    of requests: a later POST never gives it out again. *)
Theorem deleted_id_stays_deleted (py_str : json -> string) (request : Request)
    (id : Z) (w w' : World) (body : json) (calls : list (route * Request)) :
  key_in_order w ->
  respond (remove_question request id) w = ((body, 200), w') ->
  forall q, In q (questions (serve_all py_str calls w')) -> Question.id q <> id.
Proof.
  intros [_ Hbelow] Hrun.
  assert (Hgone : gone id w').
  { pose proof (remove_question_keeps_seq request id w) as Hseq.
    rewrite Hrun in Hseq. simpl in Hseq.
    apply remove_question_success in Hrun.
    destruct Hrun as (q & Hq & Hw' & _). split.
    - rewrite Hseq. rewrite Forall_forall in Hbelow.
      rewrite <- (found_by_id id q _ Hq). apply Hbelow.
      assert (Hin : In q (filter (Query.id_eq id) (questions w)))
        by (rewrite Hq; now left).
      now apply filter_In in Hin.
    - intros r Hr. rewrite Hw' in Hr. apply filter_In in Hr.
      destruct Hr as [_ Hr]. intros Heq. rewrite Heq, Z.eqb_refl in Hr.
      discriminate. }
  clear Hrun. revert w' Hgone.
  induction calls as [| [r request'] calls IH]; intros w' Hgone.
  - exact (proj2 Hgone).
  - simpl. apply IH. eapply table_effect_gone; [| exact Hgone].
    apply serve_table_effect.
Qed.

Lemma deleted_id_stays_deleted_witness :
  Forall (fun q => Question.id q <> 1)
    (questions
       (serve_all (fun _ => EmptyString) [(CreateQuestion, sample_post)]
          (snd (respond (remove_question (mkRequest None None) 1)
                  (sample_world [1; 2]))))).
Proof.
  apply Forall_forall.
  exact (deleted_id_stays_deleted (fun _ => EmptyString) (mkRequest None None) 1
           (sample_world [1; 2]) _ _ [(CreateQuestion, sample_post)]
           sample_key_in_order eq_refl).
Defined.





Lemma filter_none {A : Type} (f : A -> bool) (l : list A) :
  (forall x, In x l -> f x = false) -> filter f l = [].
Proof.
  induction l as [| x l IH]; simpl; intros Hf; [reflexivity |].
  rewrite (Hf x (or_introl eq_refl)). apply IH. intros y Hy. apply Hf. now right.
Qed.





(** X11. After a DELETE that answered 200, a second DELETE of the same id
    is answered 404 (the lookup being answered by the store). *)
Theorem remove_question_twice (request request' : Request) (id : Z)
    (w w' : World) (body : json) :
  respond (remove_question request id) w = ((body, 200), w') ->
  hd false (faults w') = false ->
  fst (respond (remove_question request' id) w') = not_found.
Proof.
  intros Hrun Hw'. apply remove_question_success in Hrun.
  destruct Hrun as (q & _ & Hq' & _).
  unfold respond. rewrite remove_question_run, Hw'.
  rewrite filter_none; [reflexivity |].
  intros r Hr. rewrite Hq' in Hr. apply filter_In in Hr.
  unfold Query.id_eq. destruct Hr as [_ Hr].
  now apply negb_true_iff in Hr.
Qed.

Lemma remove_question_twice_witness :
  fst (respond (remove_question (mkRequest None None) 2)
         (snd (respond (remove_question (mkRequest None None) 2)
                 (sample_world [1; 2])))) = not_found.
Proof.
  exact (remove_question_twice (mkRequest None None) (mkRequest None None) 2
           (sample_world [1; 2]) _ _ eq_refl eq_refl).
Defined.




(** X15. A JSON body that is not an object (a list, a string, a number,
    true, false, null) makes [body.get] raise: POST /questions and POST
    /quizzes catch it and answer 422, POST /questions/search has no try
    around it and answers 500; none of the three reaches the store. *)
Theorem body_not_an_object (py_str : json -> string) (request : Request)
    (body : json) (w : World) :
  json_body request = Some body ->
  (forall d, body <> JDict d) ->
  respond (create_question request) w = (unprocessable, set_pending [] w) /\
  respond (search_question py_str request) w = (internal_server_error, w) /\
  respond (play_quiz request) w = (unprocessable, set_pending [] w).
Proof.
  intros Hbody Hnot.
  assert (Hget : forall key, Py.get body key = Raise AttributeError).
  { intros key. destruct body; try reflexivity. now destruct (Hnot d). }
  split; [| split].
  - unfold respond. rewrite create_question_run, Hbody.
    destruct body; try reflexivity. now destruct (Hnot d).
  - unfold respond. now rewrite search_question_run, Hbody, Hget.
  - now rewrite play_quiz_run, Hbody, Hget.
Qed.

Lemma body_not_an_object_witness :
  respond (search_question (fun _ => EmptyString)
             (mkRequest None (Some (JList [])))) (sample_world [1]) =
  (internal_server_error, sample_world [1]).
Proof.
  destruct (body_not_an_object (fun _ => EmptyString)
              (mkRequest None (Some (JList []))) (JList []) (sample_world [1])
              eq_refl) as (_ & Hsearch & _).
  - discriminate.
  - exact Hsearch.
Defined.

(** X16. When the store fails at the insert, POST /questions answers 422
    with the session rolled back, the questions and the sequence as
    before.  When the insert is committed and the listing after it fails,
    the answer is 422 as well although the question is stored. *)
Theorem create_question_store_fails (request : Request) (d : list (string * json))
    (w : World) :
  json_body request = Some (JDict d) ->
  let answer := respond (create_question request) w in
  (hd false (faults w) = true ->
   fst answer = unprocessable /\
   questions (snd answer) = questions w /\
   questions_id_seq (snd answer) = questions_id_seq w /\
   pending (snd answer) = []) /\
  (forall q,
     hd false (faults w) = false ->
     Question.row (driver w) (questions_id_seq w) (draft_of (JDict d)) = Return q ->
     (forall r, In r (questions w) -> Question.id r <> questions_id_seq w) ->
     hd false (tl (faults w)) = true ->
     fst answer = unprocessable /\
     questions (snd answer) = questions w ++ [q] /\
     pending (snd answer) = []).
Proof.
  intros Hbody answer. unfold answer, respond.
  rewrite create_question_run, Hbody. cbv zeta. split.
  - now intros ->.
  - intros q -> Hrow Hfresh ->. rewrite Hrow.
    rewrite (row_id _ _ _ _ Hrow).
    assert (Hex : existsb (fun r => Question.id r =? questions_id_seq w) (questions w) = false).
    { destruct (existsb _ (questions w)) eqn:He; [| reflexivity].
      apply existsb_exists in He. destruct He as (r & Hr & Heq).
      apply Z.eqb_eq in Heq. now destruct (Hfresh r Hr). }
    now rewrite Hex.
Qed.

Lemma create_question_store_fails_witness :
  fst (respond (create_question sample_post)
         (mkWorld [sample_question 1] [] 100 [] [true] 0 [])) = unprocessable /\
  questions (snd (respond (create_question sample_post)
                    (mkWorld [sample_question 1] [] 100 [] [true] 0 []))) =
  [sample_question 1].
Proof.
  destruct (create_question_store_fails sample_post _
              (mkWorld [sample_question 1] [] 100 [] [true] 0 []) eq_refl)
    as (Hfail & _).
  destruct (Hfail eq_refl) as (Hanswer & Hq & _).
  split; [exact Hanswer | exact Hq].
Defined.



Lemma lower_idem (c : ascii) : Sql.lower (Sql.lower c) = Sql.lower c.
Proof. destruct c as [[] [] [] [] [] [] [] []]; reflexivity. Qed.

Lemma lower_wildcard (c : ascii) :
  Ascii.eqb (Sql.lower c) "%" = Ascii.eqb c "%" /\
  Ascii.eqb (Sql.lower c) "_" = Ascii.eqb c "_" /\
  Ascii.eqb (Sql.lower c) "\" = Ascii.eqb c "\".
Proof. destruct c as [[] [] [] [] [] [] [] []]; repeat split. Qed.

Lemma eq_ci_lower_l (a b : ascii) : Sql.eq_ci (Sql.lower a) b = Sql.eq_ci a b.
Proof. unfold Sql.eq_ci. now rewrite lower_idem. Qed.

Lemma eq_ci_lower_r (a b : ascii) : Sql.eq_ci a (Sql.lower b) = Sql.eq_ci a b.
Proof. unfold Sql.eq_ci. now rewrite lower_idem. Qed.

(** One step of [Sql.like], by the head of the pattern. *)
Lemma like_step (c : ascii) (p s : list ascii) :
  Sql.like (c :: p) s =
  if Ascii.eqb c "%" then
    Sql.like p s || match s with [] => false | _ :: s' => Sql.like (c :: p) s' end
  else if Ascii.eqb c "_" then
    match s with [] => false | _ :: s' => Sql.like p s' end
  else if Ascii.eqb c "\" then
    match p with
    | [] => false
    | e :: p' => match s with [] => false | x :: s' => Sql.eq_ci e x && Sql.like p' s' end
    end
  else
    match s with [] => false | x :: s' => Sql.eq_ci c x && Sql.like p s' end.
Proof.
  simpl. destruct (Ascii.eqb c "%").
  - destruct s; reflexivity.
  - destruct (Ascii.eqb c "_"); [reflexivity |].
    destruct (Ascii.eqb c "\"); [| reflexivity].
    destruct p; reflexivity.
Qed.

Lemma like_lower_pattern (n : nat) :
  forall p s, (List.length p <= n)%nat ->
              Sql.like (map Sql.lower p) s = Sql.like p s.
Proof.
  induction n as [| n IH]; intros p s Hn.
  - destruct p; [reflexivity | simpl in Hn; lia].
  - destruct p as [| c p]; [reflexivity |].
    simpl in Hn. revert s. 
    assert (Htail : forall s, Sql.like (map Sql.lower p) s = Sql.like p s)
      by (intros s; apply IH; lia).
    intros s. induction s as [| x s IHs].
    + simpl map. rewrite !like_step.
      destruct (lower_wildcard c) as (-> & -> & ->). rewrite Htail.
      destruct p as [| e p]; reflexivity.
    + simpl map. rewrite (like_step (Sql.lower c)), (like_step c).
      destruct (lower_wildcard c) as (-> & -> & ->). simpl map in IHs.
      rewrite IHs, !Htail, (eq_ci_lower_l c x).
      destruct p as [| e p]; [reflexivity |].
      cbn [map]. rewrite (eq_ci_lower_l e x).
      rewrite (IH p s) by (simpl in Hn; lia). reflexivity.
Qed.

Lemma like_lower_text (n : nat) :
  forall p s, (List.length p <= n)%nat ->
              Sql.like p (map Sql.lower s) = Sql.like p s.
Proof.
  induction n as [| n IH]; intros p s Hn.
  - destruct p; [| simpl in Hn; lia]. now destruct s.
  - destruct p as [| c p]; [now destruct s |].
    simpl in Hn.
    assert (Htail : forall s, Sql.like p (map Sql.lower s) = Sql.like p s)
      by (intros s'; apply IH; lia).
    induction s as [| x s IHs].
    + reflexivity.
    + simpl map. rewrite (like_step c p (Sql.lower x :: _)), (like_step c p (x :: s)).
      pose proof (Htail (x :: s)) as Hcons. cbn [map] in Hcons.
      rewrite Hcons, IHs, (Htail s), (eq_ci_lower_r c x).
      destruct p as [| e p]; [reflexivity |].
      rewrite (eq_ci_lower_r e x).
      rewrite (IH p s) by (simpl in Hn; lia). reflexivity.
Qed.

Lemma list_ascii_lower (s : string) :
  list_ascii_of_string (lower_string s) = map Sql.lower (list_ascii_of_string s).
Proof.
  induction s as [| c s IH]; simpl; [reflexivity | now rewrite IH].
Qed.

Lemma ilike_lower_text (text pattern : string) :
  Sql.ilike (Some (lower_string text)) pattern = Sql.ilike (Some text) pattern.
Proof.
  unfold Sql.ilike. rewrite list_ascii_lower.
  now apply (like_lower_text (List.length (list_ascii_of_string pattern))).
Qed.

Lemma ilike_lower_term (py_str : json -> string) (column : option string) (t : string) :
  Sql.ilike column (format_pattern py_str (JStr (lower_string t))) =
  Sql.ilike column (format_pattern py_str (JStr t)).
Proof.
  destruct column as [text |]; [| reflexivity].
  unfold Sql.ilike, format_pattern.
  rewrite !list_ascii_of_string_app, list_ascii_lower.
  change (list_ascii_of_string "%") with (map Sql.lower ["%"%char]).
  rewrite <- !map_app.
  now apply (like_lower_pattern
               (List.length (["%"%char] ++ list_ascii_of_string t ++ ["%"%char]))).
Qed.

Lemma lower_string_truthy (t : string) :
  truthy (JStr (lower_string t)) = truthy (JStr t).
Proof. now destruct t. Qed.

(** X13. The search does not see the case of letters: a term and the same
    term with its letters A-Z in lower case get the same response, and
    whether a question matches depends on its text only up to the case of
    its letters. *)
Theorem search_ignores_case (py_str : json -> string) (request request' : Request)
    (body body' : json) (t : string) (w : World) :
  arg_page request' = arg_page request ->
  json_body request = Some body ->
  json_body request' = Some body' ->
  Py.get body "searchTerm" = Return (JStr t) ->
  Py.get body' "searchTerm" = Return (JStr (lower_string t)) ->
  respond (search_question py_str request') w =
  respond (search_question py_str request) w /\
  (forall q, Query.question_ilike (format_pattern py_str (JStr t)) q =
             Sql.ilike (option_map lower_string (Question.question q))
                       (format_pattern py_str (JStr t))).
Proof.
  intros Hpage Hbody Hbody' Hterm Hterm'. split.
  - unfold respond. rewrite !search_question_run.
    rewrite Hbody, Hbody', Hterm, Hterm', lower_string_truthy.
    assert (Hm : matches (format_pattern py_str (JStr (lower_string t))) (questions w) =
                 matches (format_pattern py_str (JStr t)) (questions w)).
    { unfold matches. f_equal. apply filter_ext. intros q.
      unfold Query.question_ilike. apply ilike_lower_term. }
    rewrite Hm. clear Hm.
    destruct (truthy (JStr t)); [| reflexivity].
    destruct (hd false (faults w)); [reflexivity |].
    destruct (matches (format_pattern py_str (JStr t)) (questions w)) as [| q l];
      [reflexivity |].
    rewrite !paginate_page. unfold args_get_page. now rewrite Hpage.
  - intros q. unfold Query.question_ilike.
    destruct (Question.question q) as [text |]; [| reflexivity].
    simpl option_map. now rewrite ilike_lower_text.
Qed.

Lemma search_ignores_case_witness :
  respond (search_question (fun _ => EmptyString) (sample_search None "q"))
    (sample_world [1; 2]) =
  respond (search_question (fun _ => EmptyString) (sample_search None "Q"))
    (sample_world [1; 2]).
Proof.
  exact (proj1 (search_ignores_case (fun _ => EmptyString)
                  (sample_search None "Q") (sample_search None "q") _ _ "Q"
                  (sample_world [1; 2]) eq_refl eq_refl eq_refl eq_refl eq_refl)).
Defined.

Lemma filter_length_lt {A : Type} (f g : A -> bool) (l : list A) (x : A) :
  (forall y, f y = true -> g y = true) ->
  In x l -> g x = true -> f x = false ->
  (List.length (filter f l) < List.length (filter g l))%nat.
Proof.
  intros Hfg. 
  assert (Hle : forall l', (List.length (filter f l') <= List.length (filter g l'))%nat).
  { induction l' as [| y l' IH]; simpl; [lia |].
    destruct (f y) eqn:Hf.
    - rewrite (Hfg y Hf). simpl. lia.
    - destruct (g y); simpl; lia. }
  induction l as [| y l IH]; simpl; intros Hin Hg Hf; [easy |].
  destruct Hin as [-> | Hin].
  - rewrite Hf, Hg. simpl. pose proof (Hle l). lia.
  - specialize (IH Hin Hg Hf).
    destruct (f y) eqn:Hfy.
    + rewrite (Hfg y Hfy). simpl. lia.
    + destruct (g y); simpl; lia.
Qed.

Lemma quiz_body_id (q q' : Question.t) :
  quiz_body q = quiz_body q' -> Question.id q = Question.id q'.
Proof.
  unfold quiz_body, Question.format. now intros [= ->].
Qed.

Lemma quiz_answer_candidate (request : Request) (d : list (string * json))
    (ids : list Z) (cat : option Z) (w : World) (q : Question.t) :
  json_body request = Some (JDict d) ->
  Wire.field "previous_questions" (JDict d) = JList (map JNum ids) ->
  asks_category (JDict d) cat ->
  fst (respond (play_quiz request) w) = (quiz_body q, 200) ->
  (exists q0, In q0 (candidates ids cat (questions w)) /\
              Question.id q0 = Question.id q) /\
  questions (snd (respond (play_quiz request) w)) = questions w.
Proof.
  intros Hbody Hprev Hcat. rewrite play_quiz_run, Hbody, !get_dict, Hprev.
  destruct (quiz_criterion_well_formed (driver w) (JDict d) ids cat Hcat)
    as (c & -> & Hfilter).
  rewrite Hfilter.
  destruct (hd false (faults w)); [discriminate |].
  destruct (candidates ids cat (questions w)) as [| x l] eqn:Hcs; [discriminate |].
  cbn [fst snd]. intros Hq. split; [| reflexivity].
  exists (nth (hd 0%nat (tape w) mod List.length (x :: l)) (x :: l) x). split.
  - apply nth_In. apply Nat.mod_upper_bound. discriminate.
  - apply quiz_body_id. congruence.
Qed.

(** X14. A quiz moves on: when POST /quizzes answered with a question and
    the next request adds the id of that question to previous_questions,
    fewer candidates are left than before and the next answer is not that
    question again. *)
Theorem play_quiz_progress (request request' : Request)
    (d d' : list (string * json)) (ids : list Z) (cat : option Z)
    (w : World) (q : Question.t) :
  json_body request = Some (JDict d) ->
  Wire.field "previous_questions" (JDict d) = JList (map JNum ids) ->
  asks_category (JDict d) cat ->
  fst (respond (play_quiz request) w) = (quiz_body q, 200) ->
  json_body request' = Some (JDict d') ->
  Wire.field "previous_questions" (JDict d') =
    JList (map JNum (Question.id q :: ids)) ->
  asks_category (JDict d') cat ->
  let w1 := snd (respond (play_quiz request) w) in
  (List.length (candidates (Question.id q :: ids) cat (questions w1)) <
   List.length (candidates ids cat (questions w)))%nat /\
  (forall q', fst (respond (play_quiz request') w1) = (quiz_body q', 200) ->
              Question.id q' <> Question.id q).
Proof.
  intros Hbody Hprev Hcat Hanswer Hbody' Hprev' Hcat' w1.
  destruct (quiz_answer_candidate request d ids cat w q Hbody Hprev Hcat Hanswer)
    as ((q0 & Hq0 & Hid) & Hkeep).
  fold w1 in Hkeep. split.
  - rewrite Hkeep. unfold candidates.
    apply filter_In in Hq0. destruct Hq0 as [Hin Hq0].
    apply (filter_length_lt _ _ _ q0).
    + intros y Hy. apply andb_true_iff in Hy. destruct Hy as [Hc Hy].
      rewrite Hc. simpl in Hy. apply negb_true_iff, orb_false_iff in Hy.
      simpl. now rewrite (proj2 Hy).
    + exact Hin.
    + exact Hq0.
    + simpl. rewrite Hid, Z.eqb_refl. simpl. apply andb_false_r.
  - intros q' Hanswer'.
    destruct (quiz_answer_candidate request' d' (Question.id q :: ids) cat w1 q'
                Hbody' Hprev' Hcat' Hanswer') as ((q1 & Hq1 & Hid1) & _).
    apply candidates_In in Hq1. destruct Hq1 as (_ & Hnot & _).
    intros Heq. apply Hnot. left. congruence.
Qed.

Lemma play_quiz_progress_witness :
  Nat.lt
    (List.length (candidates [3; 1] (Some 1) (questions (sample_world [3; 1; 2]))))
    (List.length (candidates [1] (Some 1) (questions (sample_world [3; 1; 2])))).
Proof.
  assert (Hcat : forall previous,
            asks_category
              (JDict [("previous_questions"%string, JList (map JNum previous));
                      ("quiz_category"%string,
                       JDict [("type"%string, JStr "Science");
                              ("id"%string, JNum 1)])]) (Some 1)).
  { intros previous. right. eexists. exists 1. repeat split; reflexivity. }
  exact (proj1 (play_quiz_progress (sample_quiz 1 [1]) (sample_quiz 1 [3; 1])
                  _ _ [1] (Some 1) (sample_world [3; 1; 2]) (sample_question 3)
                  eq_refl eq_refl (Hcat [1]) eq_refl eq_refl eq_refl
                  (Hcat [3; 1]))).
Defined.
